(** * PageSpeed notifiers: [notify_email.py] and [notify_telegram.py]

    A shallow embedding of the two notification scripts and the proofs of
    their observable contract: which message is composed, which exit code
    is produced, and which network operations are attempted.

    Both scripts are straight-line effectful programs.  They are embedded
    in a small monad that threads the list of observable events emitted so
    far (lines printed, SMTP commands, HTTP requests) and that propagates
    Python exceptions.  Whatever lies outside the scripts' text (process
    environment, clock, file system, address parser of the [email]
    package, SMTP server, HTTP endpoint) is a field of a [World] record,
    so that every theorem quantifies over it. *)

From Stdlib Require Import ZArith String Ascii List Bool Lia.
From Stdlib Require SpecFloat.
From stdpp Require Import gmap strings list pretty.

Set Default Proof Using "Type".
Set Warnings "-register-all".

(** ** The Python runtime the scripts rely on *)

Module Py.

(** Python [str] values are modelled by their UTF-8 bytes. *)

Definition nl : string := String "010"%char "".
Definition cr : string := String "013"%char "".

(** [x in s] for strings. *)
Definition Contains (hay needle : string) : Prop :=
  exists pre post, hay = pre +:+ needle +:+ post.

(** [sep.join(l)] *)
Fixpoint join (sep : string) (l : list string) : string :=
  match l with
  | [] => ""
  | [x] => x
  | x :: rest => x +:+ sep +:+ join sep rest
  end.

(** [s.split(c)] for a one-character separator: never returns the empty
    list, [''.split(',') == ['']]. *)
Fixpoint split_on (c : ascii) (s : string) : list string :=
  match s with
  | EmptyString => [""]
  | String a rest =>
      if Ascii.eqb a c then "" :: split_on c rest
      else match split_on c rest with
           | h :: t => String a h :: t
           | [] => [String a ""]
           end
  end.

(** [s.split(sep, 1)] unpacked into two names: [None] is the [ValueError]
    of unpacking a single element. *)
Fixpoint split_once (c : ascii) (s : string) : option (string * string) :=
  match s with
  | EmptyString => None
  | String a rest =>
      if Ascii.eqb a c then Some ("", rest)
      else match split_once c rest with
           | Some (h, t) => Some (String a h, t)
           | None => None
           end
  end.

(** [s in {...}] for a set of string literals. *)
Definition str_in (s : string) (l : list string) : bool :=
  existsb (String.eqb s) l.

(** Truth value of a string, and of an optional string ([None] is false). *)
Definition truthy (s : string) : bool :=
  match s with EmptyString => false | _ => true end.

Definition truthy_opt (o : option string) : bool :=
  match o with Some s => truthy s | None => false end.

(** *** Exceptions and outcomes *)

Inductive exn : Type :=
  | ValueError
  | UnicodeEncodeError
  | AttributeError
  | ZoneInfoNotFoundError
  | OSError
  | SSLError
  | URLError
  | JSONDecodeError
  | SMTPServerDisconnected
  | SMTPNotSupportedError
  | SMTPResponseException (code : Z)
  | SMTPAuthenticationError
  | SMTPRecipientsRefused
  | SystemExit (code : Z).

(** [isinstance(e, smtplib.SMTPException)] *)
Definition is_SMTPException (e : exn) : bool :=
  match e with
  | SMTPServerDisconnected | SMTPNotSupportedError | SMTPResponseException _
  | SMTPAuthenticationError | SMTPRecipientsRefused => true
  | _ => false
  end.

(** [isinstance(e, smtplib.SMTPServerDisconnected)] *)
Definition is_SMTPServerDisconnected (e : exn) : bool :=
  match e with SMTPServerDisconnected => true | _ => false end.

(** [isinstance(e, Exception)]: everything here but [SystemExit]. *)
Definition is_Exception (e : exn) : bool :=
  match e with SystemExit _ => false | _ => true end.

Inductive res (A : Type) : Type :=
  | Ok (a : A)
  | Raise (e : exn).
Arguments Ok {A} a.
Arguments Raise {A} e.

(** *** The effect monad: events emitted so far, and a result *)

Section Monad.
Context {E : Type}.

Definition M (A : Type) : Type := list E -> list E * res A.

Definition ret {A} (a : A) : M A := fun t => (t, Ok a).

Definition bind {A B} (m : M A) (k : A -> M B) : M B := fun t =>
  match m t with
  | (t', Ok a) => k a t'
  | (t', Raise e) => (t', Raise e)
  end.

Definition raise {A} (e : exn) : M A := fun t => (t, Raise e).

Definition emit (e : E) : M unit := fun t => (t ++ [e], Ok tt).

(** The events emitted so far: what an external party has observed. *)
Definition history : M (list E) := fun t => (t, Ok t).

(** [lift r]: return or raise what a world oracle answered. *)
Definition lift {A} (r : res A) : M A := fun t => (t, r).

(** [try: m  except <class p>: h] *)
Definition try_except {A} (m : M A) (p : exn -> bool) (h : M A) : M A :=
  fun t =>
    match m t with
    | (t', Raise e) => if p e then h t' else (t', Raise e)
    | r => r
    end.

(** [m] followed, on every path, by [cleanup]; an exception of the
    clean-up replaces the outcome of [m]. *)
Definition ensuring {A} (m : M A) (cleanup : M unit) : M A := fun t =>
  match m t with
  | (t', r) =>
      match cleanup t' with
      | (t'', Ok _) => (t'', r)
      | (t'', Raise e) => (t'', Raise e)
      end
  end.

Definition run {A} (m : M A) : list E * res A := m [].
End Monad.
Arguments M : clear implicits.

Notation "'do' x <- m ; k" := (bind m (fun x => k))
  (at level 10, x name, m at level 100, k at level 200, only parsing).
Notation "m >> k" := (bind m (fun _ => k))
  (at level 110, right associativity, only parsing).

(** Exit status of the interpreter for [sys.exit(main())] and for
    [raise SystemExit(main())]: the returned code, the code of a
    [SystemExit] raised inside, or 1 after an uncaught exception. *)
Definition exit_status (r : res Z) : Z :=
  match r with
  | Ok code => code
  | Raise (SystemExit code) => code
  | Raise _ => 1
  end.

(** *** Clock readings and [strftime] *)

Inductive month : Type :=
  Jan | Feb | Mar | Apr | May | Jun | Jul | Aug | Sep | Oct | Nov | Dec.

(** An aware [datetime]: the fields the scripts format, and the zone
    abbreviation that [%Z] prints. *)
Record datetime : Type := {
  dt_year : N;
  dt_month : month;
  dt_day : N;
  dt_hour : N;
  dt_minute : N;
  dt_tzname : string;
}.

(** [%b] in the C locale (the scripts never call [setlocale]). *)
Definition month_abbr (m : month) : string :=
  match m with
  | Jan => "Jan" | Feb => "Feb" | Mar => "Mar" | Apr => "Apr"
  | May => "May" | Jun => "Jun" | Jul => "Jul" | Aug => "Aug"
  | Sep => "Sep" | Oct => "Oct" | Nov => "Nov" | Dec => "Dec"
  end.

(** [%d], [%H], [%M]: decimal, zero-padded to two digits. *)
Definition two_digits (n : N) : string :=
  if (n <? 10)%N then "0" +:+ pretty n else pretty n.

(** [%Y]: the year in decimal (four digits for every year a clock
    reading can carry today). *)
Definition fmt_Y (d : datetime) : string := pretty (dt_year d).

(** [d.strftime('%d %b %Y')] *)
Definition strftime_d_b_Y (d : datetime) : string :=
  two_digits (dt_day d) +:+ " " +:+ month_abbr (dt_month d) +:+ " " +:+ fmt_Y d.

(** [d.strftime('%H:%M')] *)
Definition strftime_H_M (d : datetime) : string :=
  two_digits (dt_hour d) +:+ ":" +:+ two_digits (dt_minute d).

(** *** Text as the interpreter sees it

    The strings of the model are the bytes the operating system hands over
    (arguments, environment).  Python decodes them as UTF-8 with the
    [surrogateescape] handler: a byte sequence that is not valid UTF-8
    becomes lone surrogates, which [str.encode("utf-8")] later refuses with
    [UnicodeEncodeError]. *)

Definition in_range (a : ascii) (lo hi : N) : bool :=
  let n := N_of_ascii a in ((lo <=? n) && (n <=? hi))%N.

(** The role of a byte at the start of a UTF-8 sequence: alone, or the
    first of two, three or four bytes, with the range allowed to the
    second one (the ranges that rule out overlong forms, surrogates and
    code points above U+10FFFF). *)
Inductive utf8_lead : Type :=
  | Single
  | Two
  | Three (lo hi : N)
  | Four (lo hi : N)
  | Invalid.

Definition utf8_lead_of (a : ascii) : utf8_lead :=
  let n := N_of_ascii a in
  if (n <? 128)%N then Single
  else if ((194 <=? n) && (n <=? 223))%N then Two
  else if (n =? 224)%N then Three 160 191
  else if ((225 <=? n) && (n <=? 236) || (238 <=? n) && (n <=? 239))%N
       then Three 128 191
  else if (n =? 237)%N then Three 128 159
  else if (n =? 240)%N then Four 144 191
  else if ((241 <=? n) && (n <=? 243))%N then Four 128 191
  else if (n =? 244)%N then Four 128 143
  else Invalid.

(** The bytes decode without any lone surrogate, so that encoding the
    decoded text as UTF-8 succeeds: every sequence is complete and well
    formed. *)
Fixpoint utf8_valid (s : string) : bool :=
  match s with
  | EmptyString => true
  | String a r =>
      match utf8_lead_of a with
      | Single => utf8_valid r
      | Two =>
          match r with
          | String b r1 => in_range b 128 191 && utf8_valid r1
          | _ => false
          end
      | Three lo hi =>
          match r with
          | String b (String c r2) =>
              in_range b lo hi && in_range c 128 191 && utf8_valid r2
          | _ => false
          end
      | Four lo hi =>
          match r with
          | String b (String c (String d r3)) =>
              in_range b lo hi && in_range c 128 191 && in_range d 128 191
              && utf8_valid r3
          | _ => false
          end
      | Invalid => false
      end
  end.

(** [bytes.splitlines()]: lines end at LF, CR or CRLF, and a final line
    terminator opens no empty last line. *)
Fixpoint bytes_splitlines (s : string) : list string :=
  match s with
  | EmptyString => []
  | String a rest =>
      if Ascii.eqb a "010" then "" :: bytes_splitlines rest
      else if Ascii.eqb a "013" then
        match rest with
        | String "010" rest' => "" :: bytes_splitlines rest'
        | _ => "" :: bytes_splitlines rest
        end
      else match bytes_splitlines rest with
           | h :: t => String a h :: t
           | [] => [String a ""]
           end
  end.

(** The text the email package keeps for [set_content(body)]: the lines
    of the encoded body, each closed by LF. *)
Definition normal_body (body : string) : string :=
  join nl (bytes_splitlines body) +:+ nl.

(** What follows the first line boundary of [str.splitlines()], if there
    is one: LF, CR, CRLF, VT, FF, FS, GS, RS, and NEL, LS, PS in their
    UTF-8 form. *)
Fixpoint after_line_break (s : string) : option string :=
  match s with
  | EmptyString => None
  | String a rest =>
      if Ascii.eqb a "013" then
        match rest with
        | String "010" rest' => Some rest'
        | _ => Some rest
        end
      else if in_range a 10 12 || in_range a 28 30 then Some rest
      else if Ascii.eqb a "194" then
        match rest with
        | String "133" rest' => Some rest'
        | _ => after_line_break rest
        end
      else if Ascii.eqb a "226" then
        match rest with
        | String "128" (String "168" rest') => Some rest'
        | String "128" (String "169" rest') => Some rest'
        | _ => after_line_break rest
        end
      else after_line_break rest
  end.

(** [len(value.splitlines()) > 1]: a line boundary with something after
    it. *)
Definition multi_line (value : string) : bool :=
  match after_line_break value with
  | Some rest => truthy rest
  | None => false
  end.

(** Printable ASCII only: letters, digits, punctuation and the space. *)
Fixpoint printable (s : string) : bool :=
  match s with
  | EmptyString => true
  | String a rest => in_range a 32 126 && printable rest
  end.

(** *** String built-ins whose Unicode tables are not reproduced

    [str.strip], [str.upper] and [int(str)] are Unicode-aware in Python.
    The scripts are embedded over an arbitrary implementation of the three,
    so the theorems hold for CPython's; [ascii_builtins] below is their
    restriction to ASCII text and is what concrete runs evaluate. *)

Record Builtins : Type := {
  str_strip : string -> string;
  str_upper : string -> string;
  int_of_str : string -> option Z;
}.

(** ASCII white space as [str.isspace] sees it. *)
Definition is_space (a : ascii) : bool :=
  let n := N_of_ascii a in
  ((9 <=? n) && (n <=? 13) || (28 <=? n) && (n <=? 32))%N.

Fixpoint lstrip (s : string) : string :=
  match s with
  | String a rest => if is_space a then lstrip rest else s
  | EmptyString => ""
  end.

(** Strips trailing white space: a character is dropped when it is a space
    and everything after it has been dropped. *)
Fixpoint rstrip (s : string) : string :=
  match s with
  | EmptyString => ""
  | String a rest =>
      match rstrip rest with
      | EmptyString => if is_space a then "" else String a ""
      | r => String a r
      end
  end.

Definition ascii_strip (s : string) : string := rstrip (lstrip s).

Definition upper_char (a : ascii) : ascii :=
  let n := N_of_ascii a in
  if ((97 <=? n) && (n <=? 122))%N then ascii_of_N (n - 32) else a.

Fixpoint ascii_upper (s : string) : string :=
  match s with
  | EmptyString => ""
  | String a rest => String (upper_char a) (ascii_upper rest)
  end.

Definition lower_char (a : ascii) : ascii :=
  let n := N_of_ascii a in
  if ((65 <=? n) && (n <=? 90))%N then ascii_of_N (n + 32) else a.

(** Every way of writing the letters of [s] in upper or lower case. *)
Fixpoint casings (s : string) : list string :=
  match s with
  | EmptyString => [""]
  | String a rest =>
      flat_map (fun r => [String (lower_char a) r; String (upper_char a) r])
               (casings rest)
  end.

(** [c in s] for a character. *)
Fixpoint has_char (c : ascii) (s : string) : bool :=
  match s with
  | EmptyString => false
  | String a rest => Ascii.eqb a c || has_char c rest
  end.

Definition digit_of (a : ascii) : option Z :=
  let n := N_of_ascii a in
  if ((48 <=? n) && (n <=? 57))%N then Some (Z.of_N (n - 48)) else None.

(** Digits of an [int] literal, most significant first; a single
    underscore is allowed between two digits.  [prev] tells whether the
    previous character was a digit. *)
Fixpoint parse_digits (acc : Z) (prev : bool) (s : string) : option Z :=
  match s with
  | EmptyString => if prev then Some acc else None
  | String a rest =>
      match digit_of a with
      | Some d => parse_digits (10 * acc + d) true rest
      | None =>
          if Ascii.eqb a "_" && prev then parse_digits acc false rest
          else None
      end
  end.

(** [int(s)] on ASCII text: surrounding white space, an optional sign,
    then the digits. [None] stands for [ValueError]. *)
Definition ascii_int (s : string) : option Z :=
  match ascii_strip s with
  | String "-" rest => option_map Z.opp (parse_digits 0 false rest)
  | String "+" rest => parse_digits 0 false rest
  | body => parse_digits 0 false body
  end.

(** The three built-ins on ASCII text, where they agree with CPython's;
    concrete runs evaluate them on ASCII text only. *)
Definition ascii_builtins : Builtins :=
  {| str_strip := ascii_strip; str_upper := ascii_upper; int_of_str := ascii_int |}.

End Py.

(** ** [notify_email.py] *)

Module NotifyEmail.
Import Py.

(** What [EmailMessage.add_attachment] records. *)
Record Attachment : Type := {
  att_data : string;
  att_maintype : string;
  att_subtype : string;
  att_filename : string;
}.

(** The [EmailMessage] object as it can be read back: the three headers
    the script sets ([str(msg["From"])] and so on), the text of the body
    (what [get_content()] gives for the text part), and the attachments
    in order. *)
Record EmailMessage : Type := {
  msg_from : string;
  msg_to : string;
  msg_subject : string;
  msg_content : string;
  msg_attachments : list Attachment;
}.

(** Operations on the SMTP connection. [SMTP_SSL] opens a connection that
    is encrypted from its first byte, [SMTP] a plaintext one. *)
Inductive smtp_op : Type :=
  | SMTP_SSL (host : string) (port : Z)
  | SMTP (host : string) (port : Z)
  | Ehlo
  | StartTLS
  | Login (user password : string)
  | SendMessage (msg : EmailMessage)
  | Quit.

Inductive event : Type :=
  | Stdout (line : string)
  | Stderr (line : string)
  | Smtp (op : smtp_op).

(** A network operation is any event on the SMTP connection. *)
Definition is_network (e : event) : bool :=
  match e with Smtp _ => true | _ => false end.

(** Everything the script reads from outside its own text. [zone_now tz]
    is the clock reading in zone [tz], or [None] when [ZoneInfo(tz)] raises;
    [address_header v] is what the [email] package keeps when the
    single-line text [v] is assigned to an address header ([From], [To]):
    it parses [v] as an address list and renders it again (surrounding
    white space and a final line break go, a malformed list is repaired or
    refused with an exception), a parser that is not reproduced here;
    [smtp h op] is the exception, if any, with which operation [op] fails
    after the events [h]. *)
Record World : Type := {
  environ : gmap string string;
  zone_now : string -> option datetime;
  address_header : string -> res string;
  path_exists : string -> bool;
  guess_type : string -> option string;
  read_file : string -> res string;
  smtp : list event -> smtp_op -> option exn;
}.

(** The namespace returned by [parse_args]. *)
Record Args : Type := {
  site : string;
  status : string;
  duration : string;
  report : option string;
  to : option string;
}.

(** The values [argparse] accepts for [--status]. *)
Definition status_choices : list string :=
  ["Success"; "Fail"; "Failed"; "Success/Fail"].

(** [os.path.basename]: what follows the last slash. *)
Definition basename (path : string) : string :=
  List.last (split_on "/" path) "".

Section Script.
Context (B : Builtins) (w : World).

(** [os.getenv(name)] and [os.getenv(name, default)] *)
Definition getenv (name : string) : option string := environ w !! name.
Definition getenv_or (name dflt : string) : string :=
  default dflt (environ w !! name).

(** [x or y] on an optional string. *)
Definition or_else (x : option string) (y : string) : string :=
  match x with
  | Some s => if truthy s then s else y
  | None => y
  end.

(** The zone name [_wib_now] looks up first:
    [tz_env or os.getenv("TZ", "Asia/Jakarta")]. *)
Definition zone_name (tz_env : option string) : string :=
  or_else tz_env (getenv_or "TZ" "Asia/Jakarta").

(** [datetime.now(ZoneInfo(name))] *)
Definition now_in_zone (name : string) : M event datetime :=
  match zone_now w name with
  | Some d => ret d
  | None => raise ZoneInfoNotFoundError
  end.

Definition _wib_now (tz_env : option string) : M event datetime :=
  let tzname := zone_name tz_env in
  try_except (now_in_zone tzname) is_Exception
             (now_in_zone "Asia/Jakarta").

Definition subject_of (now : datetime) : string :=
  "PageSpeed Insight Report - " +:+ strftime_d_b_Y now +:+ " | "
    +:+ strftime_H_M now +:+ " WIB".

Definition body_of (site status duration : string) : string :=
  "Site     : " +:+ site +:+ nl
    +:+ "Summary:" +:+ nl
    +:+ "• Status   : " +:+ status +:+ nl
    +:+ "• Duration : " +:+ duration +:+ " seconds" +:+ nl +:+ nl
    +:+ "Check the attached HTML report for the full test results" +:+ nl
    +:+ "This report is auto-generated and maintained by Mazway".

(** [msg[name] = value] begins with the check of the header policy: a
    value of more than one line is refused. *)
Definition single_line (value : string) : M event string :=
  if multi_line value then raise ValueError else ret value.

(** [msg["From"] = value] and [msg["To"] = value]: the value kept is the
    address list as the package renders it. *)
Definition set_address (value : string) : M event string :=
  do v <- single_line value;
  lift (address_header w v).

(** [msg["Subject"] = value]: an unstructured header, kept as given. *)
Definition set_subject (value : string) : M event string :=
  single_line value.

(** [msg.set_content(body)]: the body is encoded as UTF-8, which fails on
    a lone surrogate, and kept line by line; [msg_content] is the text
    that [get_content()] gives back. *)
Definition set_content (body : string) : M event string :=
  if utf8_valid body then ret (normal_body body)
  else raise UnicodeEncodeError.

Definition build_message (site status duration sender : string)
    (recipients : list string) (tz_env : option string)
    : M event EmailMessage :=
  do now <- _wib_now tz_env;
  let subject := subject_of now in
  let body := body_of site status duration in
  do from <- set_address sender;
  do to <- set_address (join ", " recipients);
  do subject <- set_subject subject;
  do content <- set_content body;
  ret {| msg_from := from;
         msg_to := to;
         msg_subject := subject;
         msg_content := content;
         msg_attachments := [] |}.

Definition add_attachment (msg : EmailMessage) (a : Attachment) : EmailMessage :=
  {| msg_from := msg_from msg;
     msg_to := msg_to msg;
     msg_subject := msg_subject msg;
     msg_content := msg_content msg;
     msg_attachments := msg_attachments msg ++ [a] |}.

(** The message object is mutated in place by the script; here the
    updated message is returned. *)
Definition attach_file (msg : EmailMessage) (path : option string)
    : M event EmailMessage :=
  match path with
  | None => ret msg
  | Some p =>
      if negb (truthy p) then ret msg
      else if negb (path_exists w p) then
        emit (Stderr ("[notify_email] WARNING: attachment not found: " +:+ p)) >>
        ret msg
      else
        let ctype := or_else (guess_type w p) "application/octet-stream" in
        match split_once "/" ctype with
        | None => raise ValueError
        | Some (maintype, subtype) =>
            do data <- lift (read_file w p);
            ret (add_attachment msg
                   {| att_data := data;
                      att_maintype := maintype;
                      att_subtype := subtype;
                      att_filename := basename p |})
        end
  end.

(** One operation on the connection: it is observed, then it succeeds
    or raises what the server (or the socket) answers. *)
Definition smtp_do (op : smtp_op) : M event unit :=
  do h <- history;
  emit (Smtp op) >>
  match smtp w h op with
  | None => ret tt
  | Some e => raise e
  end.

(** Leaving the [with] block: [QUIT], a lost connection being ignored. *)
Definition smtp_exit : M event unit :=
  try_except (smtp_do Quit) is_SMTPServerDisconnected (ret tt).

Definition login_if (user password : string) : M event unit :=
  if truthy user && truthy password then smtp_do (Login user password)
  else ret tt.

Definition send_email (msg : EmailMessage) (host : string) (port : Z)
    (user password : string) : M event unit :=
  if String.eqb (pretty port) "465" then
    smtp_do (SMTP_SSL host port) >>
    ensuring (login_if user password >>
              smtp_do (SendMessage msg))
             smtp_exit
  else
    smtp_do (SMTP host port) >>
    ensuring (smtp_do Ehlo >>
              try_except (smtp_do StartTLS >> smtp_do Ehlo)
                         is_SMTPException
                         (ret tt) >>
              login_if user password >>
              smtp_do (SendMessage msg))
             smtp_exit.

(** [[e.strip() for e in src.split(",") if e.strip()]] *)
Definition recipients_of (src : string) : list string :=
  filter (fun e => truthy e = true) (map (str_strip B) (split_on "," src)).

(** The text the recipients are read from: [--to] when it is given and
    not empty, [EMAIL_TO] (default [""]) otherwise. *)
Definition recipient_source (args : Args) : string :=
  if truthy_opt (to args) then default "" (to args)
  else getenv_or "EMAIL_TO" "".

(** The status handed to [build_message]. *)
Definition effective_status (args : Args) : string :=
  if String.eqb (status args) "Failed" then "Fail" else status args.

(** [main] after [parse_args] has returned [args]. *)
Definition main (args : Args) : M event Z :=
  let host := getenv "SMTP_HOST" in
  do port <- match int_of_str B (getenv_or "SMTP_PORT" "587") with
             | Some p => ret p
             | None => raise ValueError
             end;
  let user := getenv_or "SMTP_USER" "" in
  let password := getenv_or "SMTP_PASS" "" in
  let sender := getenv "EMAIL_FROM" in
  let env_to := getenv_or "EMAIL_TO" "" in
  let tz_env := getenv_or "TZ" "Asia/Jakarta" in
  if negb (truthy_opt host) || negb (truthy_opt sender)
     || (negb (truthy env_to) && negb (truthy_opt (to args)))
  then
    emit (Stderr ("[notify_email] Missing SMTP_HOST/EMAIL_FROM/EMAIL_TO. "
                    +:+ "Set via env or GitHub Secrets.")) >>
    ret 2%Z
  else
    let recipients :=
      recipients_of (if truthy_opt (to args) then default "" (to args)
                     else env_to) in
    match recipients with
    | [] =>
        emit (Stderr "[notify_email] No recipients resolved.") >>
        ret 2%Z
    | _ =>
        do msg <- build_message (site args)
                    (if String.eqb (status args) "Failed" then "Fail"
                     else status args)
                    (duration args) (default "" sender) recipients
                    (Some tz_env);
        do msg <- attach_file msg (report args);
        send_email msg (default "" host) port user password >>
        emit (Stdout ("[notify_email] Email sent to: "
                        +:+ join ", " recipients)) >>
        ret 0%Z
    end.
End Script.

(** *** Notions used to state the properties of [send_email] *)

(** Events of the implicit-TLS path, and of the plaintext-then-STARTTLS
    path. *)
Definition is_ssl_connect (e : event) : bool :=
  match e with Smtp (SMTP_SSL _ _) => true | _ => false end.

Definition is_plain_path (e : event) : bool :=
  match e with Smtp (SMTP _ _) | Smtp StartTLS => true | _ => false end.

(** A server that rejects or does not offer STARTTLS (the command raises
    some [SMTPException]) and accepts every other operation. *)
Definition lacks_starttls (w : World) : Prop :=
  forall h op,
    match op with
    | StartTLS => exists e, smtp w h op = Some e /\ is_SMTPException e = true
    | _ => smtp w h op = None
    end.

(** A configuration that passes the validation of [main]: the port
    parses to [p], host and sender are set and not empty, a recipient
    text is given and at least one recipient is resolved from it. *)
Definition valid_config (B : Builtins) (w : World) (args : Args) (p : Z) : Prop :=
  int_of_str B (getenv_or w "SMTP_PORT" "587") = Some p
  /\ truthy_opt (getenv w "SMTP_HOST") = true
  /\ truthy_opt (getenv w "EMAIL_FROM") = true
  /\ recipient_source w args <> ""
  /\ recipients_of B (recipient_source w args) <> [].

(** The authentication step, when both credentials are non-empty. *)
Definition login_events (user password : string) : list event :=
  if truthy user && truthy password then [Smtp (Login user password)] else [].

(** *** Notions used to state further properties *)

Definition is_send (e : event) : bool :=
  match e with Smtp (SendMessage _) => true | _ => false end.

Definition is_login (e : event) : bool :=
  match e with Smtp (Login _ _) => true | _ => false end.

Definition is_stdout (e : event) : bool :=
  match e with Stdout _ => true | _ => false end.

(** The operation with which [send_email] opens the connection. *)
Definition connect_op (host : string) (port : Z) : smtp_op :=
  if (port =? 465)%Z then SMTP_SSL host port else SMTP host port.

(** A server on which every operation succeeds. *)
Definition accepts_all (w : World) : Prop :=
  forall h op, smtp w h op = None.

(** The attachment [attach_file] builds for an existing file of content
    [data], given what [mimetypes.guess_type] answers for its path. *)
Definition attachment_of (w : World) (path data : string) : option Attachment :=
  match split_once "/" (or_else (guess_type w path) "application/octet-stream") with
  | Some (maintype, subtype) =>
      Some {| att_data := data;
              att_maintype := maintype;
              att_subtype := subtype;
              att_filename := basename path |}
  | None => None
  end.

(** An address as [recipients_of] keeps it: not empty, free of commas and
    left unchanged by [str.strip], which holds when no white space, of
    Unicode as of ASCII, surrounds it. *)
Definition clean_address (B : Builtins) (s : string) : Prop :=
  s <> "" /\ has_char "," s = false /\ str_strip B s = s.

(** The confirmation line of a successful run. *)
Definition confirmation (B : Builtins) (w : World) (args : Args) : event :=
  Stdout ("[notify_email] Email sent to: "
            +:+ join ", " (recipients_of B (recipient_source w args))).

(** The steps of [main] that follow a successful validation. *)
Definition deliver (B : Builtins) (w : World) (args : Args) (p : Z) : M event Z :=
  do msg <- build_message w (site args) (effective_status args) (duration args)
              (default "" (getenv w "EMAIL_FROM"))
              (recipients_of B (recipient_source w args))
              (Some (getenv_or w "TZ" "Asia/Jakarta"));
  do msg <- attach_file w msg (report args);
  send_email w msg (default "" (getenv w "SMTP_HOST")) p
    (getenv_or w "SMTP_USER" "") (getenv_or w "SMTP_PASS" "") >>
  emit (confirmation B w args) >>
  ret 0%Z.

End NotifyEmail.

(** ** [notify_telegram.py] *)

Module NotifyTelegram.
Import Py.

(** What [json.loads] returns. *)
Inductive json : Type :=
  | JNull
  | JBool (b : bool)
  | JInt (z : Z)
  | JFloat (f : SpecFloat.spec_float)
  | JStr (s : string)
  | JArr (items : list json)
  | JObj (members : gmap string json).

(** [bool(v)] *)
Definition py_bool (v : json) : bool :=
  match v with
  | JNull => false
  | JBool b => b
  | JInt z => negb (z =? 0)%Z
  | JFloat (SpecFloat.S754_zero _) => false
  | JFloat _ => true
  | JStr s => truthy s
  | JArr items => match items with [] => false | _ => true end
  | JObj members => match map_to_list members with [] => false | _ => true end
  end.

(** [v.get(key)]: only a [dict] has the method. *)
Definition py_get (v : json) (key : string) : res json :=
  match v with
  | JObj members => Ok (default JNull (members !! key))
  | _ => Raise AttributeError
  end.

(** [urllib.request.Request(url, data=...)]; the method is derived from
    the presence of [data]. *)
Record Request : Type := {
  req_url : string;
  req_data : option string;
}.

Definition get_method (r : Request) : string :=
  match req_data r with Some _ => "POST" | None => "GET" end.

Inductive event : Type :=
  | Stdout (line : string)
  | Stderr (line : string)
  | UrlOpen (req : Request) (timeout : Z).

Definition is_network (e : event) : bool :=
  match e with UrlOpen _ _ => true | _ => false end.

(** [zone_now tz] is the clock reading in zone [tz], or [None] when the
    zone cannot be loaded; [urlopen h req] is the response body read from
    the endpoint, or the exception raised by the request after the events
    [h]; [repr] is how an f-string renders a decoded response. *)
Record World : Type := {
  environ : gmap string string;
  zone_now : string -> option datetime;
  utc_now : datetime;
  urlopen : list event -> Request -> res string;
  json_loads : string -> res json;
  repr : json -> string;
}.

Record Args : Type := {
  status : string;
  site : string;
  duration : option string;
  dashboard : option string;
  extra : option string;
}.

(** *** [urllib.parse.urlencode] *)

Inductive form_value : Type :=
  | FStr (s : string)
  | FBool (b : bool).

(** [str(v)] *)
Definition form_str (v : form_value) : string :=
  match v with
  | FStr s => s
  | FBool true => "True"
  | FBool false => "False"
  end.

Definition hex_digit (n : N) : ascii :=
  match n with
  | 0 => "0" | 1 => "1" | 2 => "2" | 3 => "3" | 4 => "4" | 5 => "5"
  | 6 => "6" | 7 => "7" | 8 => "8" | 9 => "9" | 10 => "A" | 11 => "B"
  | 12 => "C" | 13 => "D" | 14 => "E" | _ => "F"
  end%char%N.

(** Characters [quote] never escapes: letters, digits and [_.-~]. *)
Definition always_safe (a : ascii) : bool :=
  let n := N_of_ascii a in
  ((48 <=? n) && (n <=? 57) || (65 <=? n) && (n <=? 90)
   || (97 <=? n) && (n <=? 122)
   || (n =? 95) || (n =? 46) || (n =? 45) || (n =? 126))%N.

Definition quote_char (a : ascii) : string :=
  if always_safe a then String a ""
  else if Ascii.eqb a " " then "+"
  else let n := N_of_ascii a in
       String "%" (String (hex_digit (n / 16)) (String (hex_digit (n mod 16)) "")).

(** [quote_plus(s)]: the string is encoded as UTF-8, then every byte
    that is not safe is escaped.  The encoding raises [UnicodeEncodeError]
    on a lone surrogate, that is on bytes for which [utf8_valid] is false;
    the function below is what is written for the strings that encode,
    and the statements about every string carry [utf8_valid]. *)
Fixpoint quote_plus (s : string) : string :=
  match s with
  | EmptyString => ""
  | String a rest => quote_char a +:+ quote_plus rest
  end.

(** The item written for one field: [quote_plus(str(k)) + "=" +
    quote_plus(str(v))]. *)
Definition item_of (kv : string * form_value) : string :=
  quote_plus (fst kv) +:+ "=" +:+ quote_plus (form_str (snd kv)).

(** [urlencode(data)] for a dict, whose items come in insertion order. *)
Definition urlencode (data : list (string * form_value)) : string :=
  join "&" (map item_of data).

(** *** Decoding of a form-urlencoded body, as the receiving end does it *)

Definition hex_value (a : ascii) : option N :=
  let n := N_of_ascii a in
  if ((48 <=? n) && (n <=? 57))%N then Some (n - 48)%N
  else if ((65 <=? n) && (n <=? 70))%N then Some (n - 55)%N
  else if ((97 <=? n) && (n <=? 102))%N then Some (n - 87)%N
  else None.

Fixpoint unquote_plus (s : string) : string :=
  match s with
  | EmptyString => ""
  | String a rest =>
      if Ascii.eqb a "+" then String " " (unquote_plus rest)
      else if Ascii.eqb a "%" then
        match rest with
        | String h (String l rest') =>
            match hex_value h, hex_value l with
            | Some x, Some y => String (ascii_of_N (16 * x + y)) (unquote_plus rest')
            | _, _ => String a (unquote_plus rest)
            end
        | _ => String a (unquote_plus rest)
        end
      else String a (unquote_plus rest)
  end.

Definition form_pair (item : string) : string * string :=
  match split_once "=" item with
  | Some (k, v) => (unquote_plus k, unquote_plus v)
  | None => (unquote_plus item, "")
  end.

Definition form_decode (body : string) : list (string * string) :=
  map form_pair (filter (fun item => truthy item = true) (split_on "&" body)).

Section Script.
Context (B : Builtins) (w : World).

(** [print(..., file=sys.stderr)] followed by [sys.exit(2)] when a
    required variable is unset or blank. *)
Definition env (name : string) (dflt : option string) (required : bool)
    : M event (option string) :=
  let v := match environ w !! name with Some s => Some s | None => dflt end in
  if required && match v with
                 | None => true
                 | Some s => String.eqb (str_strip B s) ""
                 end
  then
    emit (Stderr ("[notify_telegram] Missing required env: " +:+ name)) >>
    raise (SystemExit 2)
  else ret v.

(** How an f-string or [str()] renders an optional string. *)
Definition str_of (o : option string) : string :=
  match o with Some s => s | None => "None" end.

Definition send_message (token chat_id text parse_mode : string)
    : M event json :=
  let url := "https://api.telegram.org/bot" +:+ token +:+ "/sendMessage" in
  let data := [("chat_id", FStr chat_id);
               ("text", FStr text);
               ("parse_mode", FStr parse_mode);
               ("disable_web_page_preview", FBool true)] in
  let body := urlencode data in
  let req := {| req_url := url; req_data := Some body |} in
  do h <- history;
  emit (UrlOpen req 20) >>
  do raw <- lift (urlopen w h req);
  lift (json_loads w raw).

(** [strftime("%d %b %Y | %H:%M %Z")] and [strftime("%d %b %Y | %H:%M UTC")] *)
Definition strftime_zone (d : datetime) : string :=
  strftime_d_b_Y d +:+ " | " +:+ strftime_H_M d +:+ " " +:+ dt_tzname d.
Definition strftime_utc (d : datetime) : string :=
  strftime_d_b_Y d +:+ " | " +:+ strftime_H_M d +:+ " UTC".

Definition badge_of (status : string) : string :=
  let status := str_upper B (str_strip B status) in
  if str_in status ["FAIL"; "FAILED"] then "❌ FAILED"
  else "✅ SUCCESS".

(** The [lines] list of [main], appended to in source order. *)
Definition lines_of (args : Args) (badge now_str : string) : list string :=
  let lines := [] in
  let lines := lines ++ ["<b>PageSpeed Insight Report</b>"] in
  let lines := lines ++ ["Status: <b>" +:+ badge +:+ "</b>"] in
  let lines := lines ++ ["Site: <code>" +:+ site args +:+ "</code>"] in
  let lines := if truthy_opt (duration args)
               then lines ++ ["Duration: <b>" +:+ str_of (duration args) +:+ " s</b>"]
               else lines in
  let lines := lines ++ ["Time: " +:+ now_str] in
  let lines := if truthy_opt (dashboard args)
               then lines ++ ["Dashboard: " +:+ str_of (dashboard args)]
               else lines in
  let lines := if truthy_opt (extra args)
               then lines ++ [str_of (extra args)]
               else lines in
  lines.

(** The message text composed by [main]. *)
Definition text_of (args : Args) (now_str : string) : string :=
  join nl (lines_of args (badge_of (status args)) now_str).

Definition now_str_of : M event string :=
  let tz := default "Asia/Jakarta" (environ w !! "TZ") in
  try_except (do d <- match zone_now w tz with
                      | Some d => ret d
                      | None => raise ZoneInfoNotFoundError
                      end;
              ret (strftime_zone d))
             is_Exception
             (ret (strftime_utc (utc_now w))).

(** [main] after [parse_args] has returned [args]. *)
Definition main (args : Args) : M event Z :=
  do token <- env "TELEGRAM_BOT_TOKEN" None true;
  do chat_id <- env "TELEGRAM_CHAT_ID" None true;
  do now_str <- now_str_of;
  let text := text_of args now_str in
  do res <- send_message (str_of token) (str_of chat_id) text "HTML";
  do okv <- lift (py_get res "ok");
  let ok := py_bool okv in
  if negb ok then
    emit (Stderr ("[notify_telegram] Telegram API error: " +:+ repr w res)) >>
    raise (SystemExit 1)
  else
    emit (Stdout "[notify_telegram] Sent.") >>
    ret 0%Z.
End Script.

(** *** Notions used to state the properties of [main] *)

(** Both required variables are set and not blank. *)
Definition credentials (B : Builtins) (w : World) (token chat_id : string) : Prop :=
  environ w !! "TELEGRAM_BOT_TOKEN" = Some token
  /\ str_strip B token <> ""
  /\ environ w !! "TELEGRAM_CHAT_ID" = Some chat_id
  /\ str_strip B chat_id <> "".


(** *** Notions used to state further properties *)

(** An environment value that [env] rejects when required: unset, or
    blank once stripped. *)
Definition is_blank (B : Builtins) (o : option string) : bool :=
  match o with
  | None => true
  | Some s => String.eqb (str_strip B s) ""
  end.

Definition is_stdout (e : event) : bool :=
  match e with Stdout _ => true | _ => false end.


(** Every character of a string satisfies [p]. *)
Fixpoint all_chars (p : ascii -> bool) (s : string) : bool :=
  match s with
  | EmptyString => true
  | String a rest => p a && all_chars p rest
  end.

(** The characters [quote_plus] can write. *)
Definition wire_safe (a : ascii) : bool :=
  always_safe a || Ascii.eqb a "+" || Ascii.eqb a "%".

(** The fields a form body carries: each name with [str] of its value. *)
Definition fields_of (data : list (string * form_value)) : list (string * string) :=
  map (fun kv => (fst kv, form_str (snd kv))) data.

(** The steps of [main] that follow [send_message]. *)
Definition check_response (w : World) (res : json) : M event Z :=
  do okv <- lift (py_get res "ok");
  let ok := py_bool okv in
  if negb ok then
    emit (Stderr ("[notify_telegram] Telegram API error: " +:+ repr w res)) >>
    raise (SystemExit 1)
  else
    emit (Stdout "[notify_telegram] Sent.") >>
    ret 0%Z.

(** The request [main] builds for a message text. *)
Definition request_of (token chat_id text : string) : Request :=
  {| req_url := "https://api.telegram.org/bot" +:+ token +:+ "/sendMessage";
     req_data := Some (urlencode [("chat_id", FStr chat_id);
                                  ("text", FStr text);
                                  ("parse_mode", FStr "HTML");
                                  ("disable_web_page_preview", FBool true)]) |}.

(** An optional line of the message: present when the argument is given
    and not empty. *)
Definition optional_line (pre : string) (o : option string) (post : string)
    : list string :=
  match o with
  | Some s => if truthy s then [pre +:+ s +:+ post] else []
  | None => []
  end.

End NotifyTelegram.

(** ** Concrete worlds on which the scripts are run *)

Module Samples.
Import Py.

Definition reading : datetime :=
  {| dt_year := 2025; dt_month := Mar; dt_day := 4;
     dt_hour := 9; dt_minute := 5; dt_tzname := "WIB" |}.

Definition reading_utc : datetime :=
  {| dt_year := 2025; dt_month := Mar; dt_day := 4;
     dt_hour := 2; dt_minute := 5; dt_tzname := "UTC" |}.

(** A zone database that knows two zones. *)
Definition zones (tz : string) : option datetime :=
  if String.eqb tz "Asia/Jakarta" then Some reading
  else if String.eqb tz "UTC" then Some reading_utc
  else None.

(** An SMTP server that accepts every operation, and one that does not
    offer STARTTLS. *)
Definition accepting (h : list NotifyEmail.event) (op : NotifyEmail.smtp_op)
    : option exn := None.

Definition no_starttls (h : list NotifyEmail.event) (op : NotifyEmail.smtp_op)
    : option exn :=
  match op with
  | NotifyEmail.StartTLS => Some SMTPNotSupportedError
  | _ => None
  end.

(** The address headers of these samples: plain addresses separated by
    ", ", which the [email] package keeps as they are.  Any other value is
    refused, so that no sample run depends on how it would be rendered. *)
Definition known_addresses (v : string) : res string :=
  if str_in v ["ci@example.com"; "dev@example.com"; "qa@example.com";
               "dev@example.com, ops@example.com"]
  then Ok v else Raise ValueError.

(** A machine without any report file. *)
Definition email_world (env : list (string * string))
    (server : list NotifyEmail.event -> NotifyEmail.smtp_op -> option exn)
    : NotifyEmail.World :=
  {| NotifyEmail.environ := list_to_map env;
     NotifyEmail.zone_now := zones;
     NotifyEmail.address_header := known_addresses;
     NotifyEmail.path_exists := fun _ => false;
     NotifyEmail.guess_type := fun _ => None;
     NotifyEmail.read_file := fun _ => Raise OSError;
     NotifyEmail.smtp := server |}.

(** A server whose certificate is rejected during the STARTTLS handshake,
    one that refuses connections, and one that refuses the recipients. *)
Definition bad_certificate (h : list NotifyEmail.event) (op : NotifyEmail.smtp_op)
    : option exn :=
  match op with
  | NotifyEmail.StartTLS => Some SSLError
  | _ => None
  end.

Definition unreachable (h : list NotifyEmail.event) (op : NotifyEmail.smtp_op)
    : option exn :=
  match op with
  | NotifyEmail.SMTP _ _ | NotifyEmail.SMTP_SSL _ _ => Some OSError
  | _ => None
  end.

Definition refusing (h : list NotifyEmail.event) (op : NotifyEmail.smtp_op)
    : option exn :=
  match op with
  | NotifyEmail.SendMessage _ => Some SMTPRecipientsRefused
  | _ => None
  end.

(** A machine whose only file is [dashboard/index.html]; [guess] is what
    [mimetypes] answers for it and [content] what reading it gives. *)
Definition report_world (env : list (string * string))
    (server : list NotifyEmail.event -> NotifyEmail.smtp_op -> option exn)
    (guess : option string) (content : res string)
    : NotifyEmail.World :=
  {| NotifyEmail.environ := list_to_map env;
     NotifyEmail.zone_now := zones;
     NotifyEmail.address_header := known_addresses;
     NotifyEmail.path_exists := fun p => String.eqb p "dashboard/index.html";
     NotifyEmail.guess_type := fun _ => guess;
     NotifyEmail.read_file := fun _ => content;
     NotifyEmail.smtp := server |}.

Definition plain_message : NotifyEmail.EmailMessage :=
  {| NotifyEmail.msg_from := "ci@example.com";
     NotifyEmail.msg_to := "dev@example.com";
     NotifyEmail.msg_subject := "subject";
     NotifyEmail.msg_content := "body";
     NotifyEmail.msg_attachments := [] |}.

Definition smtp_env : list (string * string) :=
  [("SMTP_HOST", "mail.example.com"); ("EMAIL_FROM", "ci@example.com");
   ("EMAIL_TO", "dev@example.com, ops@example.com")].

Definition email_args (status : string) (report to : option string)
    : NotifyEmail.Args :=
  {| NotifyEmail.site := "https://example.com";
     NotifyEmail.status := status;
     NotifyEmail.duration := "4.99";
     NotifyEmail.report := report;
     NotifyEmail.to := to |}.

(** An endpoint that answers every request with the decoded value [v]. *)
Definition telegram_world (env : list (string * string)) (v : NotifyTelegram.json)
    : NotifyTelegram.World :=
  {| NotifyTelegram.environ := list_to_map env;
     NotifyTelegram.zone_now := zones;
     NotifyTelegram.utc_now := reading_utc;
     NotifyTelegram.urlopen := fun _ _ => Ok "<response>";
     NotifyTelegram.json_loads := fun _ => Ok v;
     NotifyTelegram.repr := fun _ => "<repr of the response>" |}.


Definition bot_env : list (string * string) :=
  [("TELEGRAM_BOT_TOKEN", "123:abc"); ("TELEGRAM_CHAT_ID", "-100200")].

Definition telegram_args (status : string) : NotifyTelegram.Args :=
  {| NotifyTelegram.status := status;
     NotifyTelegram.site := "https://www.generasimaju.co.id";
     NotifyTelegram.duration := Some "4.99";
     NotifyTelegram.dashboard := None;
     NotifyTelegram.extra := None |}.

End Samples.

(** ** Facts about strings and about the effect monad *)

Module PyFacts.
Import Py.

Lemma append_assoc (a b c : string) : (a +:+ b) +:+ c = a +:+ b +:+ c.
Proof.
  induction a as [|x a IH]; [reflexivity|].
  change (String x ((a +:+ b) +:+ c) = String x (a +:+ b +:+ c)).
  now rewrite IH.
Qed.

Lemma append_nil_r (a : string) : a +:+ "" = a.
Proof.
  induction a as [|x a IH]; [reflexivity|].
  change (String x (a +:+ "") = String x a). now rewrite IH.
Qed.

Lemma Contains_mid (pre needle post : string) :
  Contains (pre +:+ needle +:+ post) needle.
Proof. now exists pre, post. Qed.

Lemma Contains_app_l (pre s needle : string) :
  Contains s needle -> Contains (pre +:+ s) needle.
Proof.
  intros (a & b & ->). exists (pre +:+ a), b. now rewrite append_assoc.
Qed.

Lemma Contains_app_r (s post needle : string) :
  Contains s needle -> Contains (s +:+ post) needle.
Proof.
  intros (a & b & ->). exists a, (b +:+ post). now rewrite !append_assoc.
Qed.

Lemma truthy_false (s : string) : truthy s = false <-> s = "".
Proof. destruct s; simpl; split; congruence. Qed.

(** [str(port) == "465"] holds for the integer 465 only. *)
Lemma pretty_465 (port : Z) : String.eqb (pretty port) "465" = true <-> port = 465%Z.
Proof.
  rewrite String.eqb_eq. split.
  - intros H. apply (inj (pretty : Z -> string)). exact H.
  - now intros ->.
Qed.

(** *** Lines of a body *)

Lemma bytes_splitlines_nil (s : string) : bytes_splitlines s = [] -> s = "".
Proof.
  destruct s as [|a r]; [reflexivity|]. simpl.
  destruct (Ascii.eqb a "010"); [discriminate|].
  destruct (Ascii.eqb a "013").
  - destruct r as [|[[] [] [] [] [] [] [] []] r']; discriminate.
  - destruct (bytes_splitlines r); discriminate.
Qed.

Lemma normal_body_plain (a : ascii) (r : string) :
  Ascii.eqb a "010" = false -> Ascii.eqb a "013" = false ->
  normal_body (String a r) = String a (normal_body r).
Proof.
  intros Hlf Hcr. unfold normal_body. simpl bytes_splitlines.
  rewrite Hlf, Hcr.
  destruct (bytes_splitlines r) as [|h [|h' t]]; reflexivity.
Qed.

Lemma normal_body_lf (r : string) :
  normal_body (String "010" r)
  = match r with
    | EmptyString => nl
    | _ => String "010" (normal_body r)
    end.
Proof.
  unfold normal_body. simpl bytes_splitlines.
  destruct (bytes_splitlines r) as [|h t] eqn:E.
  - apply bytes_splitlines_nil in E. now subst r.
  - destruct r; [discriminate|]. reflexivity.
Qed.

Lemma normal_body_cr (r : string) :
  normal_body (String "013" r)
  = match r with
    | String "010" _ => normal_body r
    | _ => normal_body (String "010" r)
    end.
Proof.
  destruct r as [|[[] [] [] [] [] [] [] []] r']; reflexivity.
Qed.

Lemma Contains_cons (a : ascii) (s needle : string) :
  Contains s needle -> Contains (String a s) needle.
Proof. intros (p & q & ->). now exists (String a p), q. Qed.

Lemma Contains_empty (s : string) : Contains s "".
Proof. now exists "", s. Qed.

Lemma append_empty (a b : string) : a +:+ b = "" -> a = "" /\ b = "".
Proof. destruct a; [intros H; split; [reflexivity|exact H] | discriminate]. Qed.

(** A text free of carriage returns that begins a body is kept as it is. *)
Lemma normal_body_prefix (x post : string) :
  has_char "013" x = false ->
  exists tl, normal_body (x +:+ post) = x +:+ tl.
Proof.
  induction x as [|a x IH]; intros Hcr.
  - now exists (normal_body post).
  - simpl in Hcr. apply orb_false_iff in Hcr as [Ha Hx].
    destruct (IH Hx) as [tl Htl].
    change (String a x +:+ post) with (String a (x +:+ post)).
    destruct (Ascii.eqb a "010") eqn:Hlf.
    + apply Ascii.eqb_eq in Hlf. subst a. rewrite normal_body_lf.
      destruct (x +:+ post) as [|c r] eqn:E.
      * apply append_empty in E as [-> _]. now exists "".
      * exists tl. rewrite Htl. reflexivity.
    + exists tl. rewrite normal_body_plain, Htl by assumption. reflexivity.
Qed.

(** Whatever stands before and after it, a text free of carriage returns
    is found in the body that is kept. *)
Lemma normal_body_contains (pre x post : string) :
  has_char "013" x = false ->
  Contains (normal_body (pre +:+ x +:+ post)) x.
Proof.
  intros Hcr. induction pre as [|a pre IH].
  - destruct (normal_body_prefix x post Hcr) as [tl Htl].
    change ("" +:+ x +:+ post) with (x +:+ post). rewrite Htl. now exists "", tl.
  - change (String a pre +:+ x +:+ post) with (String a (pre +:+ x +:+ post)).
    assert (Contains (normal_body (String "010" (pre +:+ x +:+ post))) x) as Hlf.
    { rewrite normal_body_lf. destruct (pre +:+ x +:+ post) as [|c r] eqn:E.
      - apply append_empty in E as [_ E]. apply append_empty in E as [-> _].
        apply Contains_empty.
      - now apply Contains_cons. }
    destruct (Ascii.eqb a "010") eqn:Ha.
    { apply Ascii.eqb_eq in Ha. now subst a. }
    destruct (Ascii.eqb a "013") eqn:Hb.
    + apply Ascii.eqb_eq in Hb. subst a. rewrite normal_body_cr.
      destruct (pre +:+ x +:+ post) as [|[[] [] [] [] [] [] [] []] r]; assumption.
    + rewrite normal_body_plain by assumption. now apply Contains_cons.
Qed.

(** Nothing of what a carriage return stood in remains in the body. *)
Lemma normal_body_no_cr (s : string) : has_char "013" (normal_body s) = false.
Proof.
  remember (String.length s) as n eqn:Hn.
  revert s Hn. induction n as [n IH] using lt_wf_ind. intros s ->.
  destruct s as [|a r]; [reflexivity|].
  assert (has_char "013" (normal_body r) = false) as Hr.
  { apply (IH (String.length r)); [simpl; lia | reflexivity]. }
  assert (has_char "013" (normal_body (String "010" r)) = false) as Hlf.
  { rewrite normal_body_lf. destruct r; [reflexivity|]. exact Hr. }
  destruct (Ascii.eqb a "010") eqn:Ha.
  { apply Ascii.eqb_eq in Ha. now subst a. }
  destruct (Ascii.eqb a "013") eqn:Hb.
  - apply Ascii.eqb_eq in Hb. subst a. rewrite normal_body_cr.
    destruct r as [|[[] [] [] [] [] [] [] []] r']; assumption.
  - rewrite normal_body_plain by assumption. simpl. now rewrite Hb, Hr.
Qed.

Lemma has_char_contains (c : ascii) (hay needle : string) :
  Contains hay needle -> has_char c hay = false -> has_char c needle = false.
Proof.
  intros (p & q & ->). induction p as [|a p IH].
  - change ("" +:+ needle +:+ q) with (needle +:+ q).
    induction needle as [|b needle IHn]; [reflexivity|].
    change (String b needle +:+ q) with (String b (needle +:+ q)). simpl.
    intros H. apply orb_false_iff in H as [-> H]. now apply IHn.
  - change (String a p +:+ needle +:+ q) with (String a (p +:+ needle +:+ q)).
    simpl. intros H. apply orb_false_iff in H as [_ H]. now apply IH.
Qed.

(** *** Single-line headers *)

Lemma printable_app (a b : string) :
  printable (a +:+ b) = printable a && printable b.
Proof.
  induction a as [|x a IH]; [reflexivity|].
  change (String x a +:+ b) with (String x (a +:+ b)). simpl.
  now rewrite IH, andb_assoc.
Qed.

Lemma printable_char_no_break (a : ascii) (r : string) :
  in_range a 32 126 = true ->
  after_line_break (String a r) = after_line_break r.
Proof.
  intros H.
  destruct a as [[] [] [] [] [] [] [] []]; vm_compute in H;
    try discriminate H; reflexivity.
Qed.

Lemma printable_single_line (s : string) :
  printable s = true -> multi_line s = false.
Proof.
  intros H. unfold multi_line.
  assert (after_line_break s = None) as ->; [|reflexivity].
  induction s as [|a r IH]; [reflexivity|].
  simpl in H. apply andb_true_iff in H as [Ha Hr].
  rewrite printable_char_no_break by exact Ha. now apply IH.
Qed.

Lemma pretty_N_char_printable (x : N) : in_range (pretty_N_char x) 32 126 = true.
Proof. unfold pretty_N_char. repeat case_match; reflexivity. Qed.

Lemma pretty_N_go_printable (x : N) (s : string) :
  printable s = true -> printable (pretty_N_go x s) = true.
Proof.
  revert s. induction (N.lt_wf_0 x) as [x _ IH]. intros s Hs.
  destruct (decide (x = 0%N)) as [->|Hx].
  - now rewrite pretty_N_go_0.
  - rewrite pretty_N_go_step by lia. apply IH.
    + apply N.div_lt; lia.
    + simpl. now rewrite pretty_N_char_printable.
Qed.

Lemma pretty_N_printable (x : N) : printable (pretty x) = true.
Proof.
  unfold pretty, pretty_N. destruct (decide (x = 0%N)); [reflexivity|].
  now apply pretty_N_go_printable.
Qed.

Lemma two_digits_printable (x : N) : printable (two_digits x) = true.
Proof.
  unfold two_digits. destruct (x <? 10)%N.
  - rewrite printable_app, pretty_N_printable. reflexivity.
  - apply pretty_N_printable.
Qed.

(** *** Text that encodes *)

Lemma utf8_valid_app (a b : string) :
  utf8_valid a = true -> utf8_valid (a +:+ b) = utf8_valid b.
Proof.
  remember (String.length a) as n eqn:Hn.
  revert a Hn. induction n as [n IH] using lt_wf_ind. intros a -> Ha.
  destruct a as [|c r]; [reflexivity|].
  change (String c r +:+ b) with (String c (r +:+ b)).
  simpl in Ha |- *.
  destruct (utf8_lead_of c) as [| |lo hi|lo hi|]; try discriminate Ha.
  - apply (IH (String.length r)); [simpl; lia | reflexivity | exact Ha].
  - destruct r as [|b1 r1]; [discriminate|].
    change (String b1 r1 +:+ b) with (String b1 (r1 +:+ b)).
    apply andb_true_iff in Ha as [-> Ha]. simpl.
    apply (IH (String.length r1)); [simpl; lia | reflexivity | exact Ha].
  - destruct r as [|b1 [|b2 r2]]; try discriminate.
    change (String b1 (String b2 r2) +:+ b)
      with (String b1 (String b2 (r2 +:+ b))).
    apply andb_true_iff in Ha as [Hb Ha]. rewrite Hb. simpl.
    apply (IH (String.length r2)); [simpl; lia | reflexivity | exact Ha].
  - destruct r as [|b1 [|b2 [|b3 r3]]]; try discriminate.
    change (String b1 (String b2 (String b3 r3)) +:+ b)
      with (String b1 (String b2 (String b3 (r3 +:+ b)))).
    apply andb_true_iff in Ha as [Hb Ha]. rewrite Hb. simpl.
    apply (IH (String.length r3)); [simpl; lia | reflexivity | exact Ha].
Qed.

Lemma utf8_lead_range (x : ascii) :
  match utf8_lead_of x with
  | Three lo _ | Four lo _ => (128 <=? lo)%N = true
  | _ => True
  end.
Proof.
  unfold utf8_lead_of.
  repeat match goal with
         | |- context [if ?b then _ else _] => destruct b
         end; try exact I; reflexivity.
Qed.

Lemma ascii_not_following (c : ascii) (lo hi : N) :
  (N_of_ascii c <? 128)%N = true -> (128 <=? lo)%N = true ->
  in_range c lo hi = false.
Proof.
  unfold in_range. intros Hc Hlo.
  apply N.ltb_lt in Hc. apply N.leb_le in Hlo.
  apply andb_false_iff. left. apply N.leb_gt. lia.
Qed.

(** A text followed by an ASCII character encodes only if it encodes by
    itself: no sequence runs over its end. *)
Lemma utf8_valid_split (a b : string) (c : ascii) :
  (N_of_ascii c <? 128)%N = true ->
  utf8_valid (a +:+ String c b) = true ->
  utf8_valid a = true /\ utf8_valid b = true.
Proof.
  intros Hc.
  assert (forall lo hi, (128 <=? lo)%N = true -> in_range c lo hi = false)
    as Hnot by (intros; now apply ascii_not_following).
  remember (String.length a) as n eqn:Hn.
  revert a Hn. induction n as [n IH] using lt_wf_ind. intros a -> Ha.
  destruct a as [|x r].
  - change ("" +:+ String c b) with (String c b) in Ha. simpl in Ha.
    unfold utf8_lead_of in Ha. rewrite Hc in Ha. auto.
  - change (String x r +:+ String c b) with (String x (r +:+ String c b)) in Ha.
    simpl in Ha |- *. pose proof (utf8_lead_range x) as Hlo.
    destruct (utf8_lead_of x) as [| |lo hi|lo hi|]; try discriminate Ha.
    + apply (IH (String.length r)); [simpl; lia | reflexivity | exact Ha].
    + destruct r as [|b1 r1].
      * change ("" +:+ String c b) with (String c b) in Ha. cbv iota in Ha.
        rewrite (Hnot 128%N 191%N eq_refl) in Ha. discriminate Ha.
      * change (String b1 r1 +:+ String c b)
          with (String b1 (r1 +:+ String c b)) in Ha.
        apply andb_true_iff in Ha as [-> Ha]. simpl.
        apply (IH (String.length r1)); [simpl; lia | reflexivity | exact Ha].
    + destruct r as [|b1 [|b2 r2]].
      * change ("" +:+ String c b) with (String c b) in Ha.
        destruct b as [|b' b'']; [discriminate Ha|]. cbv iota in Ha.
        rewrite (Hnot lo hi Hlo) in Ha. discriminate Ha.
      * change (String b1 "" +:+ String c b) with (String b1 (String c b)) in Ha.
        cbv iota in Ha.
        rewrite (Hnot 128%N 191%N eq_refl), andb_false_r in Ha. discriminate Ha.
      * change (String b1 (String b2 r2) +:+ String c b)
          with (String b1 (String b2 (r2 +:+ String c b))) in Ha.
        apply andb_true_iff in Ha as [Hb Ha]. rewrite Hb. simpl.
        apply (IH (String.length r2)); [simpl; lia | reflexivity | exact Ha].
    + destruct r as [|b1 [|b2 [|b3 r3]]].
      * change ("" +:+ String c b) with (String c b) in Ha.
        destruct b as [|b' [|b'' b3]]; try discriminate Ha. cbv iota in Ha.
        rewrite (Hnot lo hi Hlo) in Ha. discriminate Ha.
      * change (String b1 "" +:+ String c b) with (String b1 (String c b)) in Ha.
        destruct b as [|b' b'']; [discriminate Ha|]. cbv iota in Ha.
        rewrite (Hnot 128%N 191%N eq_refl), andb_false_r in Ha. discriminate Ha.
      * change (String b1 (String b2 "") +:+ String c b)
          with (String b1 (String b2 (String c b))) in Ha.
        cbv iota in Ha.
        rewrite (Hnot 128%N 191%N eq_refl), andb_false_r in Ha. discriminate Ha.
      * change (String b1 (String b2 (String b3 r3)) +:+ String c b)
          with (String b1 (String b2 (String b3 (r3 +:+ String c b)))) in Ha.
        apply andb_true_iff in Ha as [Hb Ha]. rewrite Hb. simpl.
        apply (IH (String.length r3)); [simpl; lia | reflexivity | exact Ha].
Qed.

End PyFacts.

(** ** The email notifier *)

Module EmailFacts.
Import Py PyFacts NotifyEmail.

(** Case analysis on every answer of the server and on the class of every
    exception it raised. *)
Ltac oracle :=
  repeat match goal with
         | |- context [smtp ?w ?h ?op] =>
             let E := fresh "E" in
             destruct (smtp w h op) eqn:E; simpl
         | |- context [is_SMTPException ?e] =>
             destruct (is_SMTPException e); simpl
         | |- context [is_SMTPServerDisconnected ?e] =>
             destruct (is_SMTPServerDisconnected e); simpl
         end.

Section Facts.
Context (B : Builtins) (w : World).

Lemma wib_now_cases (tz_env : option string) (t : list event) :
  match _wib_now w tz_env t with
  | (t', Ok now) =>
      t' = t /\ (zone_now w (zone_name w tz_env) = Some now
                 \/ zone_now w "Asia/Jakarta" = Some now)
  | (t', Raise e) =>
      t' = t /\ e = ZoneInfoNotFoundError
      /\ zone_now w (zone_name w tz_env) = None
      /\ zone_now w "Asia/Jakarta" = None
  end.
Proof.
  unfold _wib_now, try_except, now_in_zone, ret, raise.
  destruct (zone_now w (zone_name w tz_env)) as [now|] eqn:E1; [auto|].
  simpl. destruct (zone_now w "Asia/Jakarta") as [now|] eqn:E2; auto.
Qed.

Lemma body_of_site (site status duration : string) :
  body_of site status duration
  = "Site     : " +:+ site
      +:+ (nl +:+ "Summary:" +:+ nl +:+ "• Status   : " +:+ status +:+ nl
             +:+ "• Duration : " +:+ duration +:+ " seconds" +:+ nl +:+ nl
             +:+ "Check the attached HTML report for the full test results"
             +:+ nl +:+ "This report is auto-generated and maintained by Mazway").
Proof. unfold body_of. rewrite ?append_assoc. reflexivity. Qed.

Lemma body_of_status (site status duration : string) :
  body_of site status duration
  = ("Site     : " +:+ site +:+ nl +:+ "Summary:" +:+ nl +:+ "• Status   : ")
      +:+ status
      +:+ (nl +:+ "• Duration : " +:+ duration +:+ " seconds" +:+ nl +:+ nl
             +:+ "Check the attached HTML report for the full test results"
             +:+ nl +:+ "This report is auto-generated and maintained by Mazway").
Proof. unfold body_of. rewrite ?append_assoc. reflexivity. Qed.

Lemma body_of_duration (site status duration : string) :
  body_of site status duration
  = ("Site     : " +:+ site +:+ nl +:+ "Summary:" +:+ nl +:+ "• Status   : "
       +:+ status +:+ nl +:+ "• Duration : ")
      +:+ duration
      +:+ (" seconds" +:+ nl +:+ nl
             +:+ "Check the attached HTML report for the full test results"
             +:+ nl +:+ "This report is auto-generated and maintained by Mazway").
Proof. unfold body_of. rewrite ?append_assoc. reflexivity. Qed.

(** The line of the body that carries the status. *)
Lemma body_of_status_line (site status duration : string) :
  body_of site status duration
  = ("Site     : " +:+ site +:+ nl +:+ "Summary:")
      +:+ (nl +:+ "• Status   : " +:+ status +:+ nl)
      +:+ ("• Duration : " +:+ duration +:+ " seconds" +:+ nl +:+ nl
             +:+ "Check the attached HTML report for the full test results"
             +:+ nl +:+ "This report is auto-generated and maintained by Mazway").
Proof. unfold body_of. rewrite ?append_assoc. reflexivity. Qed.

(** What [set_content] keeps of the three values: each one that holds no
    carriage return. *)
Lemma body_contains (site status duration : string) :
  (has_char "013" site = false ->
   Contains (normal_body (body_of site status duration)) site)
  /\ (has_char "013" status = false ->
      Contains (normal_body (body_of site status duration)) status)
  /\ (has_char "013" duration = false ->
      Contains (normal_body (body_of site status duration)) duration).
Proof.
  split; [|split]; intros H.
  - rewrite body_of_site. now apply normal_body_contains.
  - rewrite body_of_status. now apply normal_body_contains.
  - rewrite body_of_duration. now apply normal_body_contains.
Qed.

(** The body encodes as soon as the three values do. *)
Lemma body_encodes (site status duration : string) :
  utf8_valid site = true -> utf8_valid status = true ->
  utf8_valid duration = true ->
  utf8_valid (body_of site status duration) = true.
Proof.
  intros Hs Ht Hd. unfold body_of.
  repeat first [ rewrite (utf8_valid_app site) by exact Hs
               | rewrite (utf8_valid_app status) by exact Ht
               | rewrite (utf8_valid_app duration) by exact Hd
               | rewrite utf8_valid_app by reflexivity ].
  reflexivity.
Qed.

Lemma body_encodes_inv (site status duration : string) :
  utf8_valid (body_of site status duration) = true ->
  utf8_valid site = true /\ utf8_valid status = true
  /\ utf8_valid duration = true.
Proof.
  unfold body_of. intros H.
  rewrite utf8_valid_app in H by reflexivity.
  apply (utf8_valid_split site _ "010") in H as [Hs H]; [|reflexivity].
  do 3 (rewrite utf8_valid_app in H by reflexivity).
  apply (utf8_valid_split status _ "010") in H as [Ht H]; [|reflexivity].
  rewrite utf8_valid_app in H by reflexivity.
  apply (utf8_valid_split duration _ " ") in H as [Hd H]; [|reflexivity].
  auto.
Qed.

(** The subject is a single line of printable ASCII: the check of the
    header policy never refuses it. *)
Lemma subject_single_line (now : datetime) : multi_line (subject_of now) = false.
Proof.
  apply printable_single_line.
  unfold subject_of, strftime_d_b_Y, strftime_H_M, fmt_Y.
  rewrite !printable_app, !two_digits_printable, pretty_N_printable.
  destruct (dt_month now); reflexivity.
Qed.

(** Every way [build_message] can end. *)
Lemma build_message_cases (site status duration sender : string)
    (recipients : list string) (tz_env : option string) (t : list event) :
  match build_message w site status duration sender recipients tz_env t with
  | (t', Ok msg) =>
      t' = t
      /\ (exists now,
            (zone_now w (zone_name w tz_env) = Some now
             \/ zone_now w "Asia/Jakarta" = Some now)
            /\ msg_subject msg = subject_of now)
      /\ (multi_line sender = false
          /\ address_header w sender = Ok (msg_from msg))
      /\ (multi_line (join ", " recipients) = false
          /\ address_header w (join ", " recipients) = Ok (msg_to msg))
      /\ (utf8_valid (body_of site status duration) = true
          /\ msg_content msg = normal_body (body_of site status duration))
      /\ msg_attachments msg = []
  | (t', Raise e) =>
      t' = t
      /\ ((e = ZoneInfoNotFoundError
           /\ zone_now w (zone_name w tz_env) = None
           /\ zone_now w "Asia/Jakarta" = None)
          \/ (e = ValueError
              /\ (multi_line sender = true
                  \/ multi_line (join ", " recipients) = true))
          \/ address_header w sender = Raise e
          \/ address_header w (join ", " recipients) = Raise e
          \/ (e = UnicodeEncodeError
              /\ utf8_valid (body_of site status duration) = false))
  end.
Proof.
  unfold build_message, bind.
  generalize (body_of site status duration). intros body.
  pose proof (wib_now_cases tz_env t) as H.
  destruct (_wib_now w tz_env t) as [t' [now|e]].
  2: { destruct H as (-> & -> & H). split; [reflexivity|]. left. tauto. }
  destruct H as [-> H].
  unfold set_address, set_subject, set_content, single_line, bind, lift.
  rewrite subject_single_line.
  destruct (multi_line sender) eqn:Hs; simpl.
  { split; [reflexivity|]. right. left. tauto. }
  destruct (address_header w sender) as [from|e] eqn:Hfrom; simpl.
  2: { split; [reflexivity|]. tauto. }
  destruct (multi_line (join ", " recipients)) eqn:Hr; simpl.
  { split; [reflexivity|]. right. left. tauto. }
  destruct (address_header w (join ", " recipients)) as [to|e] eqn:Hto; simpl.
  2: { split; [reflexivity|]. tauto. }
  destruct (utf8_valid body) eqn:Hb; simpl.
  2: { split; [reflexivity|]. do 4 right. tauto. }
  repeat split; eauto.
Qed.
End Facts.

(** C1, as stated, fails for a site that holds a carriage return:
    [set_content] keeps the body line by line, each carriage return
    becomes a line feed, and the site is no longer found in the body. *)
Lemma build_message_carriage_return :
  let w := Samples.email_world Samples.smtp_env Samples.accepting in
  let site := "a" +:+ cr +:+ "b" in
  exists msg,
    build_message w site "Success" "4.99" "ci@example.com" ["dev@example.com"]
      None [] = ([], Ok msg)
    /\ ~ Contains (msg_content msg) site.
Proof.
  intros w site. eexists. split; [vm_compute; reflexivity|].
  intros Hc. apply (has_char_contains "013") in Hc; [discriminate Hc|].
  reflexivity.
Qed.

(** C1, amended. For every site, status, duration, sender, recipient list
    and time zone, [build_message] emits nothing, and when it returns a
    message the subject is "PageSpeed Insight Report - DD Mon YYYY | HH:MM
    WIB", where the date and time fields are those of the clock reading in
    the configured zone or in Asia/Jakarta and the suffix is the literal
    " WIB" whatever the zone; the body holds no carriage return and
    contains each of the site, the status and the duration that holds
    none.  It returns only for a sender and joined recipients of a single
    line each and for a site, status and duration that encode as UTF-8;
    it raises only when neither the configured zone nor Asia/Jakarta can
    be loaded, when the sender or the joined recipients span more than
    one line or are refused by the address parser, or when the site, the
    status or the duration does not encode. *)
Theorem build_message_subject_body (w : World)
    (site status duration sender : string) (recipients : list string)
    (tz_env : option string) (t : list event) :
  match build_message w site status duration sender recipients tz_env t with
  | (t', Ok msg) =>
      t' = t
      /\ (exists now,
            (zone_now w (zone_name w tz_env) = Some now
             \/ zone_now w "Asia/Jakarta" = Some now)
            /\ msg_subject msg =
                 "PageSpeed Insight Report - "
                   +:+ two_digits (dt_day now) +:+ " "
                   +:+ month_abbr (dt_month now) +:+ " "
                   +:+ pretty (dt_year now) +:+ " | "
                   +:+ two_digits (dt_hour now) +:+ ":"
                   +:+ two_digits (dt_minute now) +:+ " WIB")
      /\ has_char "013" (msg_content msg) = false
      /\ (has_char "013" site = false -> Contains (msg_content msg) site)
      /\ (has_char "013" status = false -> Contains (msg_content msg) status)
      /\ (has_char "013" duration = false ->
          Contains (msg_content msg) duration)
      /\ (multi_line sender = false
          /\ multi_line (join ", " recipients) = false)
      /\ (utf8_valid site = true /\ utf8_valid status = true
          /\ utf8_valid duration = true)
  | (t', Raise e) =>
      t' = t
      /\ ((zone_now w (zone_name w tz_env) = None
           /\ zone_now w "Asia/Jakarta" = None)
          \/ multi_line sender = true
          \/ multi_line (join ", " recipients) = true
          \/ address_header w sender = Raise e
          \/ address_header w (join ", " recipients) = Raise e
          \/ (e = UnicodeEncodeError
              /\ (utf8_valid site = false \/ utf8_valid status = false
                  \/ utf8_valid duration = false)))
  end.
Proof.
  pose proof (build_message_cases w site status duration sender recipients
                tz_env t) as H.
  destruct (build_message w site status duration sender recipients tz_env t)
    as [t' [msg|e]].
  - destruct H as (-> & (now & Hnow & Hsubj) & (Hs & _) & (Hr & _)
                    & (Hvalid & Hbody) & _).
    split; [reflexivity|]. split.
    + exists now. split; [exact Hnow|]. rewrite Hsubj.
      unfold subject_of, strftime_d_b_Y, strftime_H_M, fmt_Y.
      now rewrite !append_assoc.
    + rewrite Hbody. split; [apply normal_body_no_cr|].
      pose proof (body_contains site status duration) as (H1 & H2 & H3).
      apply body_encodes_inv in Hvalid. tauto.
  - destruct H as (-> & H). split; [reflexivity|].
    destruct H as [(_ & H)|[(_ & [H|H])|[H|[H|(-> & H)]]]]; try tauto.
    do 5 right. split; [reflexivity|].
    destruct (utf8_valid site) eqn:Hs; [|tauto].
    destruct (utf8_valid status) eqn:Ht; [|tauto].
    destruct (utf8_valid duration) eqn:Hd; [|tauto].
    rewrite body_encodes in H by assumption. discriminate H.
Qed.

Lemma build_message_subject_body_witness :
  let w := Samples.email_world Samples.smtp_env Samples.accepting in
  exists msg,
    build_message w "https://example.com" "Success" "4.99" "ci@example.com"
      ["dev@example.com"] (Some "UTC") [] = ([], Ok msg)
    /\ msg_subject msg = "PageSpeed Insight Report - 04 Mar 2025 | 02:05 WIB"
    /\ Contains (msg_content msg) "https://example.com".
Proof.
  intros w.
  pose proof (build_message_subject_body w "https://example.com" "Success"
                "4.99" "ci@example.com" ["dev@example.com"] (Some "UTC") [])
    as H.
  destruct (build_message w "https://example.com" "Success" "4.99"
              "ci@example.com" ["dev@example.com"] (Some "UTC") [])
    as [t' [msg|e]] eqn:E; [|discriminate E].
  exists msg. destruct H as (-> & _ & _ & Hsite & _).
  split; [reflexivity|]. split; [now injection E as <-|].
  apply Hsite. reflexivity.
Defined.

(** The label stays "WIB" when the clock is read in another zone, and the
    body that is kept ends with a line feed. *)
Example build_message_utc_zone :
  build_message (Samples.email_world Samples.smtp_env Samples.accepting)
    "https://example.com" "Success" "4.99" "ci@example.com"
    ["dev@example.com"] (Some "UTC") []
  = ([], Ok {| msg_from := "ci@example.com";
               msg_to := "dev@example.com";
               msg_subject := "PageSpeed Insight Report - 04 Mar 2025 | 02:05 WIB";
               msg_content :=
                 body_of "https://example.com" "Success" "4.99" +:+ nl;
               msg_attachments := [] |}).
Proof. reflexivity. Qed.

Lemma recipients_of_blank (B : Builtins) (src : string) :
  (forall e, In e (split_on "," src) -> str_strip B e = "") ->
  recipients_of B src = [].
Proof.
  unfold recipients_of. induction (split_on "," src) as [|e l IH]; intros H.
  - reflexivity.
  - simpl. rewrite filter_cons_False.
    + apply IH. intros e' He'. apply H. now right.
    + rewrite (H e) by now left. discriminate.
Qed.

(** C9. When [SMTP_PORT] is set to a string that [int] rejects, [main]
    raises [ValueError] before it has printed or sent anything, whatever
    the rest of the configuration; the process ends with status 1, which
    is neither 0 nor the validation status 2. *)
Theorem main_bad_port_raises (B : Builtins) (w : World) (args : Args)
    (v : string) :
  environ w !! "SMTP_PORT" = Some v ->
  int_of_str B v = None ->
  run (main B w args) = ([], Raise ValueError)
  /\ exit_status (snd (run (main B w args))) <> 0%Z
  /\ exit_status (snd (run (main B w args))) <> 2%Z.
Proof.
  intros Hv Hint.
  assert (run (main B w args) = ([], Raise ValueError)) as ->.
  { unfold run, main, bind, getenv_or. rewrite Hv. simpl. now rewrite Hint. }
  simpl. repeat split; discriminate.
Qed.

Lemma main_bad_port_raises_witness :
  run (main ascii_builtins
         (Samples.email_world (("SMTP_PORT", "smtp") :: Samples.smtp_env)
                              Samples.accepting)
         (Samples.email_args "Success" None None))
  = ([], Raise ValueError).
Proof.
  apply (main_bad_port_raises ascii_builtins _ _ "smtp"); reflexivity.
Defined.

(** C2, as stated, fails: with [SMTP_HOST] unset and [SMTP_PORT=smtp] the
    run ends in [ValueError] (status 1), not with status 2. *)
Lemma main_missing_host_bad_port :
  let w := Samples.email_world [("SMTP_PORT", "smtp"); ("EMAIL_FROM", "ci@example.com");
                                ("EMAIL_TO", "dev@example.com")]
                               Samples.accepting in
  let args := Samples.email_args "Success" None None in
  getenv w "SMTP_HOST" = None
  /\ run (main ascii_builtins w args) = ([], Raise ValueError)
  /\ exit_status (snd (run (main ascii_builtins w args))) = 1%Z.
Proof. vm_compute. repeat split. Qed.

(** A second way out of C2 as stated: [--to ""] is present and yields no
    recipient, yet the recipients are then read from [EMAIL_TO] and the
    email is sent. *)
Lemma main_empty_to_falls_back :
  let w := Samples.email_world Samples.smtp_env Samples.accepting in
  let args := Samples.email_args "Success" None (Some "") in
  recipients_of ascii_builtins "" = []
  /\ snd (run (main ascii_builtins w args)) = Ok 0%Z
  /\ In (Stdout "[notify_email] Email sent to: dev@example.com, ops@example.com")
        (fst (run (main ascii_builtins w args))).
Proof. vm_compute. repeat split. auto 10. Qed.

(** C2, amended. Provided [SMTP_PORT] is unset or holds an integer
    literal: when [SMTP_HOST] is unset or empty, or [EMAIL_FROM] is unset
    or empty, or every piece of the recipient text ([--to], or [EMAIL_TO]
    when [--to] is absent or empty) split on commas is blank once trimmed,
    [main] returns 2 after printing one line on standard error, and no
    SMTP operation is performed. *)
Theorem main_validation_exit_2 (B : Builtins) (w : World) (args : Args) (p : Z) :
  int_of_str B (getenv_or w "SMTP_PORT" "587") = Some p ->
  truthy_opt (getenv w "SMTP_HOST") = false
  \/ truthy_opt (getenv w "EMAIL_FROM") = false
  \/ (forall e, In e (split_on "," (recipient_source w args)) ->
                str_strip B e = "") ->
  (exists line, run (main B w args) = ([Stderr line], Ok 2%Z))
  /\ Forall (fun e => is_network e = false) (fst (run (main B w args))).
Proof.
  intros Hport Hcond.
  assert (exists line, run (main B w args) = ([Stderr line], Ok 2%Z)) as [line Hrun].
  { unfold run, main, bind. rewrite Hport. simpl.
    destruct (negb (truthy_opt (getenv w "SMTP_HOST"))
              || negb (truthy_opt (getenv w "EMAIL_FROM"))
              || negb (truthy (getenv_or w "EMAIL_TO" ""))
                 && negb (truthy_opt (to args))) eqn:Hchk.
    - eexists. reflexivity.
    - apply orb_false_iff in Hchk as [Hchk _].
      apply orb_false_iff in Hchk as [Hh Hs].
      apply negb_false_iff in Hh, Hs.
      destruct Hcond as [Hc|[Hc|Hc]]; [congruence..|].
      apply recipients_of_blank in Hc. unfold recipient_source in Hc.
      rewrite Hc. eexists. reflexivity. }
  split; [now exists line|].
  rewrite Hrun. simpl. repeat constructor.
Qed.

Lemma main_validation_exit_2_witness :
  exists line,
    run (main ascii_builtins
           (Samples.email_world Samples.smtp_env Samples.accepting)
           (Samples.email_args "Success" None (Some " , ")))
    = ([Stderr line], Ok 2%Z).
Proof.
  apply (main_validation_exit_2 ascii_builtins _ _ 587%Z); [reflexivity|].
  right. right. vm_compute. intros e [<-|[<-|[]]]; reflexivity.
Defined.

Ltac unfold_smtp :=
  unfold send_email, login_if, smtp_exit, smtp_do, ensuring, try_except,
    bind, ret, raise, emit, history, lift.

Ltac tidy := rewrite <- ?app_assoc; simpl.

(** C3. [send_email] chooses its transport from the port alone.  With
    port 465 the first operation opens an implicit-TLS connection, and no
    plaintext connection or STARTTLS follows.  With any other port the
    first operation opens a plaintext connection and no implicit-TLS
    connection follows; once the connection and EHLO have succeeded the
    next operation is STARTTLS; and against a server that rejects or lacks
    STARTTLS the call still logs in (when credentials are set), sends the
    message, quits and returns normally. *)
Theorem send_email_transport (w : World) (msg : EmailMessage)
    (host : string) (port : Z) (user password : string) (t : list event) :
  (port = 465%Z ->
     exists rest,
       fst (send_email w msg host port user password t)
         = t ++ Smtp (SMTP_SSL host port) :: rest
       /\ Forall (fun e => is_plain_path e = false) rest)
  /\ (port <> 465%Z ->
       (exists rest,
          fst (send_email w msg host port user password t)
            = t ++ Smtp (SMTP host port) :: rest
          /\ Forall (fun e => is_ssl_connect e = false) rest)
       /\ (smtp w t (SMTP host port) = None ->
           smtp w (t ++ [Smtp (SMTP host port)]) Ehlo = None ->
           exists rest,
             fst (send_email w msg host port user password t)
               = t ++ Smtp (SMTP host port) :: Smtp Ehlo :: Smtp StartTLS :: rest)
       /\ (lacks_starttls w ->
           send_email w msg host port user password t
             = (t ++ [Smtp (SMTP host port); Smtp Ehlo; Smtp StartTLS]
                  ++ login_events user password
                  ++ [Smtp (SendMessage msg); Smtp Quit],
                Ok tt))).
Proof.
  split.
  - intros ->. unfold_smtp. simpl.
    destruct (truthy user && truthy password); oracle; tidy;
      (eexists; split; [reflexivity | repeat constructor]).
  - intros Hport.
    assert (String.eqb (pretty port) "465" = false) as Hneq.
    { apply not_true_is_false. now rewrite pretty_465. }
    repeat split.
    + unfold_smtp. rewrite Hneq.
      destruct (truthy user && truthy password); oracle; tidy;
        (eexists; split; [reflexivity | repeat constructor]).
    + intros Hc He. unfold_smtp. rewrite Hneq, Hc. simpl. rewrite He. simpl.
      destruct (truthy user && truthy password); oracle; tidy;
        eexists; reflexivity.
    + intros Hsrv. unfold_smtp. rewrite Hneq. unfold login_events.
      rewrite (Hsrv t (SMTP host port)). simpl.
      rewrite (Hsrv _ Ehlo). simpl.
      destruct (Hsrv ((t ++ [Smtp (SMTP host port)]) ++ [Smtp Ehlo]) StartTLS)
        as (e & -> & ->). simpl.
      destruct (truthy user && truthy password); simpl.
      * rewrite (Hsrv _ (Login user password)). simpl.
        rewrite (Hsrv _ (SendMessage msg)). simpl.
        rewrite (Hsrv _ Quit). simpl. tidy. reflexivity.
      * rewrite (Hsrv _ (SendMessage msg)). simpl.
        rewrite (Hsrv _ Quit). simpl. tidy. reflexivity.
Qed.

Lemma send_email_transport_witness :
  let w := Samples.email_world Samples.smtp_env Samples.no_starttls in
  let msg := Samples.plain_message in
  send_email w msg "mail.example.com" 587 "ci" "secret" []
  = ([Smtp (SMTP "mail.example.com" 587); Smtp Ehlo; Smtp StartTLS;
      Smtp (Login "ci" "secret"); Smtp (SendMessage msg); Smtp Quit],
     Ok tt).
Proof.
  intros w msg.
  apply (send_email_transport w msg "mail.example.com" 587 "ci" "secret" []).
  - discriminate.
  - intros h op. destruct op; simpl; eauto.
Defined.

(** *** What [main] sends *)

Lemma build_message_fields (w : World) (site status duration sender : string)
    (recipients : list string) (tz_env : option string)
    (t t' : list event) (msg : EmailMessage) :
  build_message w site status duration sender recipients tz_env t = (t', Ok msg) ->
  t' = t
  /\ msg_content msg = normal_body (body_of site status duration)
  /\ msg_attachments msg = [].
Proof.
  intros E.
  pose proof (build_message_cases w site status duration sender recipients
                tz_env t) as H.
  rewrite E in H. tauto.
Qed.

Lemma build_message_raises (w : World) (site status duration sender : string)
    (recipients : list string) (tz_env : option string)
    (t t' : list event) (e : exn) :
  build_message w site status duration sender recipients tz_env t = (t', Raise e) ->
  t' = t.
Proof.
  intros E.
  pose proof (build_message_cases w site status duration sender recipients
                tz_env t) as H.
  rewrite E in H. tauto.
Qed.

(** [attach_file] performs no network operation and never touches the
    text of the message. *)
Lemma attach_file_effect (w : World) (msg : EmailMessage) (path : option string)
    (t : list event) :
  exists evs,
    fst (attach_file w msg path t) = t ++ evs
    /\ Forall (fun e => is_network e = false) evs
    /\ forall m, snd (attach_file w msg path t) = Ok m ->
                 msg_content m = msg_content msg.
Proof.
  assert (forall m0 : EmailMessage,
            exists evs : list event,
              t = t ++ evs
              /\ Forall (fun e => is_network e = false) evs
              /\ forall m, Ok m0 = Ok m -> msg_content m = msg_content m0)
    as Hsame.
  { intros m0. exists []. rewrite app_nil_r.
    repeat split; [constructor | now intros m [= <-]]. }
  unfold attach_file.
  destruct path as [p|]; [|apply Hsame].
  destruct (truthy p); simpl; [|apply Hsame].
  destruct (path_exists w p); simpl.
  - destruct (split_once "/" _) as [[mt st]|]; unfold bind, lift, raise, ret;
      [destruct (read_file w p)|]; simpl.
    + exists []. rewrite app_nil_r.
      repeat split; [constructor | now intros m [= <-]].
    + exists []. rewrite app_nil_r. repeat split; [constructor | discriminate].
    + exists []. rewrite app_nil_r. repeat split; [constructor | discriminate].
  - eexists. unfold bind, emit, ret. simpl.
    repeat split; [repeat constructor | now intros m [= <-]].
Qed.

(** Every message [send_email] hands to the server is its argument. *)
Lemma send_email_only_sends (w : World) (msg : EmailMessage) (host : string)
    (port : Z) (user password : string) (t : list event) :
  exists evs,
    fst (send_email w msg host port user password t) = t ++ evs
    /\ forall m, In (Smtp (SendMessage m)) evs -> m = msg.
Proof.
  unfold_smtp.
  destruct (String.eqb (pretty port) "465");
    destruct (truthy user && truthy password); oracle; tidy;
    (eexists; split; [reflexivity | simpl; intros m Hin; intuition congruence]).
Qed.

Lemma not_sent_before (evs : list event) (m : EmailMessage) :
  Forall (fun e => is_network e = false) evs ->
  ~ In (Smtp (SendMessage m)) evs.
Proof.
  intros H Hin. rewrite Forall_forall in H.
  apply list_elem_of_In in Hin. now apply H in Hin.
Qed.

(** C6. Whatever message [main] hands to the SMTP server, the body that
    message carries has the status line of the template, closed by its line
    feed: "• Status   : Fail" when the status argument is ["Failed"], and
    the argument itself, unchanged, when it is ["Success"], ["Fail"] or
    ["Success/Fail"]. *)
Theorem main_status_in_body (B : Builtins) (w : World) (args : Args)
    (msg : EmailMessage) :
  In (Smtp (SendMessage msg)) (fst (run (main B w args))) ->
  (status args = "Failed" ->
     Contains (msg_content msg) (nl +:+ "• Status   : Fail" +:+ nl))
  /\ (In (status args) ["Success"; "Fail"; "Success/Fail"] ->
       Contains (msg_content msg)
         (nl +:+ "• Status   : " +:+ status args +:+ nl)).
Proof.
  intros Hin.
  assert (msg_content msg
          = normal_body
              (body_of (site args) (effective_status args) (duration args)))
    as ->.
  { revert Hin. unfold run, main, bind.
    destruct (int_of_str B _) as [p|]; simpl; [|tauto].
    destruct (_ || _); simpl; [intros [?|[]]; discriminate|].
    destruct (recipients_of B _) as [|r rs]; simpl;
      [intros [?|[]]; discriminate|].
    destruct (build_message _ _ _ _ _ _ _ _) as [t1 [m1|e]] eqn:Hb;
      [apply build_message_fields in Hb as (-> & Hbody & _)
      |apply build_message_raises in Hb as ->; simpl; tauto].
    destruct (attach_file_effect w m1 (report args) []) as (evs & Ht & Hnet & Hm).
    destruct (attach_file w m1 (report args) []) as [t2 [m2|e]]; simpl in *;
      [|subst t2; intros Hin; now apply not_sent_before in Hin].
    specialize (Hm m2 eq_refl). subst t2.
    match goal with
    | |- context [send_email ?w ?m ?h ?p ?u ?pw ?t] =>
        destruct (send_email_only_sends w m h p u pw t) as (evs' & Ht' & Hs);
        destruct (send_email w m h p u pw t) as [t3 [[]|e]]
    end; simpl in *; subst t3; unfold emit, ret; simpl;
      rewrite ?in_app_iff; simpl; intros Hin.
    - destruct Hin as [[Hin|Hin]|[Hin|[]]]; [|apply Hs in Hin; subst|discriminate].
      + now apply not_sent_before in Hin.
      + now rewrite Hm, Hbody.
    - destruct Hin as [Hin|Hin]; [now apply not_sent_before in Hin|].
      apply Hs in Hin; subst. now rewrite Hm, Hbody. }
  rewrite body_of_status_line. unfold effective_status. split.
  - intros ->. now apply normal_body_contains.
  - intros Hst. simpl in Hst.
    destruct Hst as [<-|[<-|[<-|[]]]]; now apply normal_body_contains.
Qed.

Lemma main_status_in_body_witness :
  let w := Samples.email_world Samples.smtp_env Samples.accepting in
  let args := Samples.email_args "Failed" None None in
  exists msg,
    In (Smtp (SendMessage msg)) (fst (run (main ascii_builtins w args)))
    /\ Contains (msg_content msg) (nl +:+ "• Status   : Fail" +:+ nl).
Proof.
  intros w args.
  exists {| msg_from := "ci@example.com";
            msg_to := "dev@example.com, ops@example.com";
            msg_subject := "PageSpeed Insight Report - 04 Mar 2025 | 09:05 WIB";
            msg_content := body_of "https://example.com" "Fail" "4.99" +:+ nl;
            msg_attachments := [] |}.
  assert (In (Smtp (SendMessage
                {| msg_from := "ci@example.com";
                   msg_to := "dev@example.com, ops@example.com";
                   msg_subject :=
                     "PageSpeed Insight Report - 04 Mar 2025 | 09:05 WIB";
                   msg_content :=
                     body_of "https://example.com" "Fail" "4.99" +:+ nl;
                   msg_attachments := [] |}))
             (fst (run (main ascii_builtins w args)))) as Hin.
  { vm_compute. do 4 right. left. reflexivity. }
  split; [exact Hin|].
  apply (main_status_in_body ascii_builtins w args _ Hin). reflexivity.
Defined.




End EmailFacts.

(** ** The Telegram notifier *)

Module TelegramFacts.
Import Py PyFacts NotifyTelegram.

(** *** Form encoding and its decoding *)

Lemma has_char_app (c : ascii) (a b : string) :
  has_char c (a +:+ b) = has_char c a || has_char c b.
Proof.
  induction a as [|x a IH]; [reflexivity|].
  change (Ascii.eqb x c || has_char c (a +:+ b)
          = Ascii.eqb x c || has_char c a || has_char c b).
  rewrite IH. now rewrite orb_assoc.
Qed.

Lemma quote_char_no_sep (a : ascii) :
  has_char "&" (quote_char a) = false /\ has_char "=" (quote_char a) = false.
Proof. destruct a as [[] [] [] [] [] [] [] []]; split; reflexivity. Qed.

Lemma quote_plus_no_sep (s : string) :
  has_char "&" (quote_plus s) = false /\ has_char "=" (quote_plus s) = false.
Proof.
  induction s as [|a s [IH1 IH2]]; [split; reflexivity|].
  simpl. rewrite !has_char_app, IH1, IH2.
  destruct (quote_char_no_sep a) as [-> ->]. split; reflexivity.
Qed.

Lemma unquote_quote_char (a : ascii) (s : string) :
  unquote_plus (quote_char a +:+ s) = String a (unquote_plus s).
Proof. destruct a as [[] [] [] [] [] [] [] []]; reflexivity. Qed.

Lemma unquote_quote_plus (s : string) : unquote_plus (quote_plus s) = s.
Proof.
  induction s as [|a s IH]; [reflexivity|].
  simpl. rewrite unquote_quote_char. now rewrite IH.
Qed.

Lemma split_on_no_sep (c : ascii) (a : string) :
  has_char c a = false -> split_on c a = [a].
Proof.
  induction a as [|x a IH]; [reflexivity|]. simpl.
  intros H. apply orb_false_iff in H as [Hx Ha].
  rewrite Hx, (IH Ha). reflexivity.
Qed.

Lemma split_on_app (c : ascii) (a b : string) :
  has_char c a = false -> split_on c (a +:+ String c b) = a :: split_on c b.
Proof.
  induction a as [|x a IH]; intros H.
  - change (split_on c (String c b) = "" :: split_on c b).
    simpl. now rewrite Ascii.eqb_refl.
  - simpl in H. apply orb_false_iff in H as [Hx Ha].
    change (split_on c (String x (a +:+ String c b)) = String x a :: split_on c b).
    simpl. rewrite Hx, (IH Ha). reflexivity.
Qed.

Lemma split_once_app (c : ascii) (a b : string) :
  has_char c a = false -> split_once c (a +:+ String c b) = Some (a, b).
Proof.
  induction a as [|x a IH]; intros H.
  - change (split_once c (String c b) = Some ("", b)).
    simpl. now rewrite Ascii.eqb_refl.
  - simpl in H. apply orb_false_iff in H as [Hx Ha].
    change (split_once c (String x (a +:+ String c b)) = Some (String x a, b)).
    simpl. rewrite Hx, (IH Ha). reflexivity.
Qed.

Lemma split_on_join (c : ascii) (l : list string) :
  l <> [] ->
  Forall (fun s => has_char c s = false) l ->
  split_on c (join (String c "") l) = l.
Proof.
  induction l as [|x l IH]; [congruence|]. intros _ Hall.
  inversion Hall as [|? ? Hx Hl]; subst.
  destruct l as [|y l]; [now apply split_on_no_sep|].
  change (split_on c (x +:+ String c (join (String c "") (y :: l))) = x :: y :: l).
  rewrite (split_on_app c x _ Hx). f_equal. apply IH; [discriminate | exact Hl].
Qed.

Lemma form_pair_item (kv : string * form_value) :
  form_pair (item_of kv) = (fst kv, form_str (snd kv)).
Proof.
  unfold form_pair, item_of.
  change (quote_plus (fst kv) +:+ "=" +:+ quote_plus (form_str (snd kv)))
    with (quote_plus (fst kv) +:+ String "=" (quote_plus (form_str (snd kv)))).
  rewrite split_once_app by apply quote_plus_no_sep.
  now rewrite !unquote_quote_plus.
Qed.

Lemma item_of_props (kv : string * form_value) :
  has_char "&" (item_of kv) = false /\ truthy (item_of kv) = true.
Proof.
  unfold item_of. split.
  - rewrite !has_char_app.
    rewrite (proj1 (quote_plus_no_sep (fst kv))).
    now rewrite (proj1 (quote_plus_no_sep (form_str (snd kv)))).
  - destruct (quote_plus (fst kv)); reflexivity.
Qed.

Lemma filter_items (data : list (string * form_value)) :
  filter (fun item => truthy item = true) (map item_of data) = map item_of data.
Proof.
  induction data as [|kv data IH]; [reflexivity|]. simpl.
  rewrite filter_cons_True by apply item_of_props. now rewrite IH.
Qed.

(** Decoding the body written by [urlencode] gives back every field, in
    order, with [str] applied to its value. *)
Lemma form_decode_urlencode (data : list (string * form_value)) :
  form_decode (urlencode data)
  = map (fun kv => (fst kv, form_str (snd kv))) data.
Proof.
  unfold form_decode, urlencode.
  destruct data as [|kv data]; [reflexivity|].
  change "&" with (String "&"%char "").
  rewrite split_on_join.
  - rewrite filter_items, map_map. apply map_ext. intros x. apply form_pair_item.
  - discriminate.
  - apply Forall_map, Forall_forall. intros x _. apply item_of_props.
Qed.

(** *** [send_message] *)

(** C5, as stated, fails on the last field: the value on the wire is
    Python's rendering of [True], which is not the text [true]. *)
Lemma send_message_preview_field :
  let w := Samples.telegram_world Samples.bot_env (JObj ∅) in
  exists body,
    fst (send_message w "123:abc" "-100200" "hi" "HTML" [])
      = [UrlOpen {| req_url := "https://api.telegram.org/bot123:abc/sendMessage";
                    req_data := Some body |} 20]
    /\ body = "chat_id=-100200&text=hi&parse_mode=HTML&disable_web_page_preview=True"
    /\ In ("disable_web_page_preview", "True") (form_decode body)
    /\ ~ In ("disable_web_page_preview", "true") (form_decode body).
Proof.
  eexists. split; [reflexivity|]. split; [reflexivity|]. split.
  - vm_compute. auto.
  - vm_compute. intuition congruence.
Qed.

(** The one event [send_message] adds: the request built from its
    arguments, whatever the endpoint then answers. *)
Lemma send_message_issues (w : World) (token chat_id text parse_mode : string)
    (t : list event) :
  fst (send_message w token chat_id text parse_mode t)
  = t ++ [UrlOpen
            {| req_url := "https://api.telegram.org/bot" +:+ token +:+ "/sendMessage";
               req_data := Some (urlencode [("chat_id", FStr chat_id);
                                            ("text", FStr text);
                                            ("parse_mode", FStr parse_mode);
                                            ("disable_web_page_preview", FBool true)]) |}
            20].
Proof.
  unfold send_message, bind, history, emit, lift. simpl.
  destruct (urlopen w t _) as [raw|e]; [destruct (json_loads w raw)|]; reflexivity.
Qed.

(** C5, amended. For every token, and for every chat id and text that
    encode as UTF-8 (no lone surrogate; [urlencode] raises
    [UnicodeEncodeError] before any request otherwise), [send_message]
    (with the parse mode [main] uses) issues exactly one request, with a
    20 s timeout: a POST to [https://api.telegram.org/bot<TOKEN>/sendMessage]
    whose form-urlencoded body carries, in this order, the fields
    [chat_id], [text], [parse_mode=HTML] and
    [disable_web_page_preview=True]. *)
Theorem send_message_request (w : World) (token chat_id text : string)
    (t : list event) :
  utf8_valid chat_id = true ->
  utf8_valid text = true ->
  exists body,
    let req := {| req_url := "https://api.telegram.org/bot" +:+ token +:+ "/sendMessage";
                  req_data := Some body |} in
    fst (send_message w token chat_id text "HTML" t) = t ++ [UrlOpen req 20]
    /\ get_method req = "POST"
    /\ body = "chat_id=" +:+ quote_plus chat_id +:+ "&text=" +:+ quote_plus text
                 +:+ "&parse_mode=HTML&disable_web_page_preview=True"
    /\ form_decode body
       = [("chat_id", chat_id); ("text", text); ("parse_mode", "HTML");
          ("disable_web_page_preview", "True")].
Proof.
  intros _ _.
  exists (urlencode [("chat_id", FStr chat_id); ("text", FStr text);
                     ("parse_mode", FStr "HTML");
                     ("disable_web_page_preview", FBool true)]).
  cbv zeta. split; [|split; [reflexivity|split]].
  - apply send_message_issues.
  - unfold urlencode, item_of. simpl. rewrite !append_assoc. reflexivity.
  - now rewrite form_decode_urlencode.
Qed.

Lemma send_message_request_witness :
  let w := Samples.telegram_world Samples.bot_env (JObj ∅) in
  exists body,
    fst (send_message w "123:abc" "-100200" "Site • ok" "HTML" [])
    = [UrlOpen {| req_url := "https://api.telegram.org/bot123:abc/sendMessage";
                  req_data := Some body |} 20]
    /\ body = "chat_id=-100200&text=Site+%E2%80%A2+ok"
                +:+ "&parse_mode=HTML&disable_web_page_preview=True".
Proof.
  intros w.
  destruct (send_message_request w "123:abc" "-100200" "Site • ok" [])
    as (body & Hreq & _ & Hbody & _); [reflexivity | reflexivity |].
  exists body. split; [exact Hreq|]. rewrite Hbody. reflexivity.
Defined.

(** *** [main] *)

Lemma now_str_total (w : World) (t : list event) :
  exists s, now_str_of w t = (t, Ok s).
Proof.
  unfold now_str_of, try_except, bind, ret, raise.
  destruct (zone_now w _); simpl; eauto.
Qed.







(** *** The text [main] sends *)

Lemma text_of_badge (B : Builtins) (args : Args) (now_str : string) :
  Contains (text_of B args now_str) (badge_of B (status args)).
Proof.
  unfold text_of, lines_of.
  destruct (truthy_opt (duration args)), (truthy_opt (dashboard args)),
    (truthy_opt (extra args)); simpl;
    apply Contains_app_l, Contains_app_l, Contains_app_r, Contains_mid.
Qed.

Lemma env_cases (B : Builtins) (w : World) (name : string) (t : list event) :
  (exists v, env B w name None true t = (t, Ok v))
  \/ (exists line, env B w name None true t
                     = (t ++ [Stderr line], Raise (SystemExit 2))).
Proof.
  unfold env. destruct (true && _); [right|left]; eexists; reflexivity.
Qed.

(** Every request in a run of [main] carries the composed text. *)
Lemma main_request_text (B : Builtins) (w : World) (args : Args)
    (req : Request) (timeout : Z) :
  In (UrlOpen req timeout) (fst (run (main B w args))) ->
  exists now_str,
    In ("text", text_of B args now_str) (form_decode (default "" (req_data req))).
Proof.
  unfold run, main, bind.
  destruct (env_cases B w "TELEGRAM_BOT_TOKEN" []) as [[tok ->]|[line ->]];
    [|simpl; intros [?|[]]; discriminate].
  destruct (env_cases B w "TELEGRAM_CHAT_ID" []) as [[chat ->]|[line ->]];
    [|simpl; intros [?|[]]; discriminate].
  destruct (now_str_total w []) as [now_str ->].
  pose proof (send_message_issues w (str_of tok) (str_of chat)
                (text_of B args now_str) "HTML" []) as Ht.
  simpl in Ht.
  assert (forall evs : list event,
            Forall (fun e => is_network e = false) evs ->
            In (UrlOpen req timeout)
               (fst (send_message w (str_of tok) (str_of chat)
                       (text_of B args now_str) "HTML" []) ++ evs) ->
            exists s, In ("text", text_of B args s)
                         (form_decode (default "" (req_data req)))) as Hin.
  { intros evs Hevs. rewrite Ht. simpl. intros [[= <- _]|Hin].
    - exists now_str. simpl. rewrite form_decode_urlencode. simpl. auto.
    - rewrite Forall_forall in Hevs. apply list_elem_of_In, Hevs in Hin.
      discriminate. }
  destruct (send_message _ _ _ _ _ _) as [t1 [res|e]]; simpl in *;
    [|intros H; apply (Hin []); [constructor | now rewrite app_nil_r]].
  unfold lift. destruct (py_get res "ok") as [okv|e]; simpl;
    [|intros H; apply (Hin []); [constructor | now rewrite app_nil_r]].
  destruct (py_bool okv); simpl; unfold emit; simpl;
    intros H; (eapply Hin; [|exact H]); repeat constructor.
Qed.

(** C7. In every request a run of [main] issues, the message text
    contains "❌ FAILED" when the trimmed, upper-cased [--status] is
    ["FAIL"] or ["FAILED"], and "✅ SUCCESS" for every other [--status].
    On ASCII text the first case covers every letter casing of [fail] and
    [failed], and the second every letter casing of [success]. *)
Theorem main_badge_in_text (B : Builtins) (w : World) (args : Args)
    (req : Request) (timeout : Z) :
  In (UrlOpen req timeout) (fst (run (main B w args))) ->
  (exists text,
     In ("text", text) (form_decode (default "" (req_data req)))
     /\ let u := str_upper B (str_strip B (status args)) in
        (u = "FAIL" \/ u = "FAILED" -> Contains text "❌ FAILED")
        /\ (u <> "FAIL" -> u <> "FAILED" -> Contains text "✅ SUCCESS"))
  /\ Forall (fun s => badge_of ascii_builtins s = "❌ FAILED")
            (casings "fail" ++ casings "failed")
  /\ Forall (fun s => badge_of ascii_builtins s = "✅ SUCCESS")
            (casings "success").
Proof.
  intros Hin. split; [|split].
  - destruct (main_request_text B w args req timeout Hin) as [now_str Htext].
    exists (text_of B args now_str). split; [exact Htext|].
    pose proof (text_of_badge B args now_str) as Hbadge.
    unfold badge_of, str_in in Hbadge. simpl in Hbadge. cbv zeta. split.
    + intros Hu.
      assert (String.eqb (str_upper B (str_strip B (status args))) "FAIL"
              || (String.eqb (str_upper B (str_strip B (status args))) "FAILED"
                  || false) = true) as E.
      { destruct Hu as [-> | ->]; reflexivity. }
      now rewrite E in Hbadge.
    + intros H1 H2.
      apply String.eqb_neq in H1, H2. now rewrite H1, H2 in Hbadge.
  - apply List.Forall_forall. intros s Hs. apply String.eqb_eq.
    revert s Hs. apply List.forallb_forall. vm_compute. reflexivity.
  - apply List.Forall_forall. intros s Hs. apply String.eqb_eq.
    revert s Hs. apply List.forallb_forall. vm_compute. reflexivity.
Qed.

Lemma main_badge_in_text_witness :
  exists text,
    In ("text", text)
       (form_decode
          ("chat_id=-100200&text=%3Cb%3EPageSpeed+Insight+Report%3C%2Fb%3E%0A"
           +:+ "Status%3A+%3Cb%3E%E2%9D%8C+FAILED%3C%2Fb%3E%0A"
           +:+ "Site%3A+%3Ccode%3Ehttps%3A%2F%2Fwww.generasimaju.co.id%3C%2Fcode%3E%0A"
           +:+ "Duration%3A+%3Cb%3E4.99+s%3C%2Fb%3E%0A"
           +:+ "Time%3A+04+Mar+2025+%7C+09%3A05+WIB"
           +:+ "&parse_mode=HTML&disable_web_page_preview=True"))
    /\ Contains text "❌ FAILED".
Proof.
  destruct (main_badge_in_text ascii_builtins
              (Samples.telegram_world Samples.bot_env (JObj {[ "ok" := JBool true ]}))
              (Samples.telegram_args " Failed ")
              {| req_url := "https://api.telegram.org/bot123:abc/sendMessage";
                 req_data := Some
                   ("chat_id=-100200&text=%3Cb%3EPageSpeed+Insight+Report%3C%2Fb%3E%0A"
                    +:+ "Status%3A+%3Cb%3E%E2%9D%8C+FAILED%3C%2Fb%3E%0A"
                    +:+ "Site%3A+%3Ccode%3Ehttps%3A%2F%2Fwww.generasimaju.co.id%3C%2Fcode%3E%0A"
                    +:+ "Duration%3A+%3Cb%3E4.99+s%3C%2Fb%3E%0A"
                    +:+ "Time%3A+04+Mar+2025+%7C+09%3A05+WIB"
                    +:+ "&parse_mode=HTML&disable_web_page_preview=True") |}
              20%Z) as [(text & Hin & Hfail & _) _].
  - vm_compute. left. reflexivity.
  - exists text. split; [exact Hin|]. apply Hfail. right. reflexivity.
Defined.

End TelegramFacts.

(** ** Further behaviour of the email notifier *)

Module EmailBehaviour.
Import Py PyFacts NotifyEmail EmailFacts.

(** *** [_wib_now] *)

(** X1. [_wib_now] emits nothing.  It reads the clock in the zone named by
    its argument, or by [TZ] when the argument is absent or empty, or in
    Asia/Jakarta when [TZ] is unset too; when that zone cannot be loaded
    it falls back to the reading in Asia/Jakarta. *)
Theorem wib_now_zone_and_fallback (w : World) (tz_env : option string)
    (t : list event) (d : datetime) :
  (forall s, tz_env = Some s -> s <> "" -> zone_name w tz_env = s)
  /\ (tz_env = None \/ tz_env = Some "" ->
      zone_name w tz_env = default "Asia/Jakarta" (environ w !! "TZ"))
  /\ (zone_now w (zone_name w tz_env) = Some d ->
      _wib_now w tz_env t = (t, Ok d))
  /\ (zone_now w (zone_name w tz_env) = None ->
      zone_now w "Asia/Jakarta" = Some d ->
      _wib_now w tz_env t = (t, Ok d)).
Proof.
  repeat split.
  - intros s -> Hs. unfold zone_name, or_else.
    destruct s; [congruence | reflexivity].
  - intros [-> | ->]; reflexivity.
  - intros H. unfold _wib_now, try_except, now_in_zone. now rewrite H.
  - intros H1 H2. unfold _wib_now, try_except, now_in_zone.
    rewrite H1. simpl. now rewrite H2.
Qed.

Lemma wib_now_zone_and_fallback_witness :
  _wib_now (Samples.email_world Samples.smtp_env Samples.accepting)
    (Some "Mars/Olympus") [] = ([], Ok Samples.reading).
Proof.
  apply (wib_now_zone_and_fallback
           (Samples.email_world Samples.smtp_env Samples.accepting)
           (Some "Mars/Olympus") [] Samples.reading); reflexivity.
Defined.

(** *** [attach_file] *)

(** X2. Whatever the path and the file system, [attach_file] leaves the
    sender, the recipients, the subject and the text of the message as they
    are and appends at most one attachment after the existing ones; it
    performs no network operation and prints at most one line, on
    standard error. *)
Theorem attach_file_preserves (w : World) (msg : EmailMessage)
    (path : option string) (t : list event) :
  (fst (attach_file w msg path t) = t
   \/ exists line, fst (attach_file w msg path t) = t ++ [Stderr line])
  /\ forall m, snd (attach_file w msg path t) = Ok m ->
       msg_from m = msg_from msg
       /\ msg_to m = msg_to msg
       /\ msg_subject m = msg_subject msg
       /\ msg_content m = msg_content msg
       /\ (msg_attachments m = msg_attachments msg
           \/ exists a, msg_attachments m = msg_attachments msg ++ [a]).
Proof.
  unfold attach_file.
  destruct path as [p|]; [|simpl; split; [auto | intros m [= <-]; auto 10]].
  destruct (truthy p); simpl; [|split; [auto | intros m [= <-]; auto 10]].
  destruct (path_exists w p); simpl.
  - destruct (split_once "/" _) as [[mt st]|]; unfold bind, lift, raise, ret;
      [destruct (read_file w p) as [data|e]|]; simpl;
      (split; [auto | try discriminate]).
    intros m [= <-]. simpl. repeat split. right. eauto.
  - unfold bind, emit, ret. simpl. split; [eauto | intros m [= <-]; auto 10].
Qed.

Lemma attach_file_preserves_witness :
  let w := Samples.report_world Samples.smtp_env Samples.accepting
             (Some "text/html") (Ok "<html></html>") in
  msg_subject
    (add_attachment Samples.plain_message
       {| att_data := "<html></html>"; att_maintype := "text";
          att_subtype := "html"; att_filename := "index.html" |})
  = msg_subject Samples.plain_message.
Proof.
  intros w.
  apply (attach_file_preserves w Samples.plain_message
           (Some "dashboard/index.html") []).
  reflexivity.
Defined.

Lemma split_on_nonempty (c : ascii) (s : string) : split_on c s <> [].
Proof.
  induction s as [|a s IH]; simpl; [discriminate|].
  destruct (Ascii.eqb a c); [discriminate|].
  destruct (split_on c s); discriminate.
Qed.





(** *** [send_email] *)

Lemma port_test (port : Z) :
  String.eqb (pretty port) "465" = (port =? 465)%Z.
Proof.
  destruct (Z.eqb_spec port 465) as [->|Hne]; [reflexivity|].
  apply not_true_is_false. now rewrite pretty_465.
Qed.

Lemma both_set (user password : string) :
  truthy user && truthy password = true <-> user <> "" /\ password <> "".
Proof.
  destruct user, password; simpl; split; try discriminate; try tauto;
    intros; split; discriminate.
Qed.

Ltac send_cases user password :=
  unfold_smtp; rewrite port_test;
  destruct (_ =? 465)%Z;
  destruct (truthy user && truthy password) eqn:Hboth; oracle; tidy.

(** X4. [send_email] authenticates only when both the user and the
    password are non-empty, and then with exactly these credentials; a
    call that returns normally with both set has logged in. *)
Theorem send_email_login (w : World) (msg : EmailMessage) (host : string)
    (port : Z) (user password : string) (t : list event) :
  exists evs,
    fst (send_email w msg host port user password t) = t ++ evs
    /\ (forall u p, In (Smtp (Login u p)) evs ->
          u = user /\ p = password /\ user <> "" /\ password <> "")
    /\ (snd (send_email w msg host port user password t) = Ok tt ->
        user <> "" -> password <> "" ->
        In (Smtp (Login user password)) evs).
Proof.
  send_cases user password;
    (eexists; split; [reflexivity|]; split;
     [ intros u p Hin; simpl in Hin; try contradiction;
       repeat (destruct Hin as [Hin|Hin]; try discriminate; try contradiction);
       injection Hin as <- <-; apply both_set in Hboth; tauto
     | intros Hok Hu Hp; try discriminate;
       try (exfalso; apply not_true_iff_false in Hboth; apply Hboth;
            apply both_set; tauto);
       simpl; tauto ]).
Qed.

Lemma send_email_login_witness :
  let w := Samples.email_world Samples.smtp_env Samples.accepting in
  In (Smtp (Login "ci" "secret"))
     (fst (send_email w Samples.plain_message "mail.example.com" 465
             "ci" "secret" [])).
Proof.
  intros w.
  destruct (send_email_login w Samples.plain_message "mail.example.com" 465
              "ci" "secret" []) as (evs & Hevs & _ & Hlogin).
  rewrite Hevs. apply Hlogin; [reflexivity | discriminate | discriminate].
Defined.

(** X5. [send_email] never retries: whatever the server answers, it opens
    one connection, hands over at most one message, which is its argument,
    and every event it adds is an operation on that connection. *)
Theorem send_email_single_attempt (w : World) (msg : EmailMessage)
    (host : string) (port : Z) (user password : string) (t : list event) :
  exists evs,
    fst (send_email w msg host port user password t)
      = t ++ Smtp (connect_op host port) :: evs
    /\ Forall (fun e => is_network e = true) evs
    /\ Forall (fun e => is_ssl_connect e = false
                       /\ (forall h p, e <> Smtp (SMTP h p))) evs
    /\ length (List.filter is_send evs) <= 1
    /\ forall m, In (Smtp (SendMessage m)) evs -> m = msg.
Proof.
  unfold connect_op. send_cases user password.
  all: eexists; split; [reflexivity|].
  all: split; [repeat constructor|].
  all: split; [repeat constructor; discriminate|].
  all: split; [simpl; lia|].
  all: intros m Hin; simpl in Hin; try contradiction.
  all: repeat (destruct Hin as [Hin|Hin]; try discriminate; try contradiction).
  all: now injection Hin.
Qed.

Lemma send_email_single_attempt_witness :
  let w := Samples.email_world Samples.smtp_env Samples.refusing in
  exists evs,
    fst (send_email w Samples.plain_message "mail.example.com" 465 "" "" [])
      = [] ++ Smtp (SMTP_SSL "mail.example.com" 465) :: evs
    /\ length (List.filter is_send evs) <= 1.
Proof.
  intros w.
  destruct (send_email_single_attempt w Samples.plain_message
              "mail.example.com" 465 "" "" [])
    as (evs & Heq & _ & _ & Hcount & _).
  exists evs. split; [exact Heq | exact Hcount].
Defined.

(** X6. The connection is always closed: when opening it fails,
    [send_email] raises that error and does nothing else; when it
    succeeds, whatever happens next, the last operation is QUIT. *)
Theorem send_email_closes (w : World) (msg : EmailMessage) (host : string)
    (port : Z) (user password : string) (t : list event) :
  (forall e, smtp w t (connect_op host port) = Some e ->
     send_email w msg host port user password t
     = (t ++ [Smtp (connect_op host port)], Raise e))
  /\ (smtp w t (connect_op host port) = None ->
      exists evs,
        fst (send_email w msg host port user password t)
        = t ++ Smtp (connect_op host port) :: evs ++ [Smtp Quit]).
Proof.
  unfold connect_op. split.
  - intros e He. unfold_smtp. rewrite port_test.
    destruct (_ =? 465)%Z; rewrite He; reflexivity.
  - intros Hc. unfold_smtp. rewrite port_test.
    destruct (_ =? 465)%Z; rewrite Hc; simpl;
      destruct (truthy user && truthy password); oracle; tidy;
      match goal with
      | |- exists evs, t ++ ?c :: ?l = _ =>
          exists (removelast l); reflexivity
      end.
Qed.

Lemma send_email_closes_witness :
  let w := Samples.email_world Samples.smtp_env Samples.unreachable in
  send_email w Samples.plain_message "mail.example.com" 587 "" "" []
  = ([Smtp (SMTP "mail.example.com" 587)], Raise OSError).
Proof.
  intros w.
  destruct (send_email_closes w Samples.plain_message "mail.example.com" 587
              "" "" []) as [Hfail _].
  apply Hfail. reflexivity.
Defined.

(** X7. [send_email] returns normally only if it has called
    [server.send_message] on the message and that call has returned
    without raising.  (What the call returns, the recipients the server
    refused when it accepted at least one, is dropped by the script and
    is no part of this statement.) *)
Theorem send_email_ok_means_sent (w : World) (msg : EmailMessage)
    (host : string) (port : Z) (user password : string) (t : list event) :
  snd (send_email w msg host port user password t) = Ok tt ->
  exists h,
    smtp w h (SendMessage msg) = None
    /\ In (Smtp (SendMessage msg))
          (fst (send_email w msg host port user password t)).
Proof.
  send_cases user password; intros Hok; try discriminate;
    (eexists; split; [eassumption|]; apply in_app_iff; right; simpl; tauto).
Qed.

Lemma send_email_ok_means_sent_witness :
  let w := Samples.email_world Samples.smtp_env Samples.no_starttls in
  exists h,
    smtp w h (SendMessage Samples.plain_message) = None
    /\ In (Smtp (SendMessage Samples.plain_message))
          (fst (send_email w Samples.plain_message "mail.example.com" 25
                  "" "" [])).
Proof.
  intros w.
  apply (send_email_ok_means_sent w Samples.plain_message "mail.example.com"
           25 "" "" []).
  reflexivity.
Defined.

Ltac oracle_one :=
  match goal with
  | |- context [smtp ?w ?h ?op] =>
      let E := fresh "E" in
      destruct (smtp w h op) eqn:E; simpl
  | |- context [is_SMTPException ?e] =>
      destruct (is_SMTPException e); simpl
  | |- context [is_SMTPServerDisconnected ?e] =>
      destruct (is_SMTPServerDisconnected e); simpl
  end.

(** X8. Only an [SMTPException] is forgiven to STARTTLS.  On a port other
    than 465, when STARTTLS raises another error (a failed TLS handshake,
    a socket error), [send_email] does not fall back to plaintext: it
    never logs in, never hands over the message, and raises; when the
    other operations succeed it raises that very error after QUIT. *)
Theorem send_email_starttls_error (w : World) (msg : EmailMessage)
    (host : string) (port : Z) (user password : string) (t : list event)
    (e : exn) :
  port <> 465%Z ->
  (forall h, smtp w h StartTLS = Some e) ->
  is_SMTPException e = false ->
  (exists evs e',
     send_email w msg host port user password t = (t ++ evs, Raise e')
     /\ Forall (fun ev => is_send ev = false /\ is_login ev = false) evs)
  /\ ((forall h op, op <> StartTLS -> smtp w h op = None) ->
      send_email w msg host port user password t
      = (t ++ [Smtp (SMTP host port); Smtp Ehlo; Smtp StartTLS; Smtp Quit],
         Raise e)).
Proof.
  intros Hport Htls Hexc. apply Z.eqb_neq in Hport. split.
  - unfold_smtp. rewrite port_test, Hport.
    repeat first [rewrite Htls; simpl | rewrite Hexc; simpl | oracle_one].
    all: tidy.
    all: eexists; eexists; split; [reflexivity|].
    all: repeat constructor.
  - intros Hrest. unfold_smtp. rewrite port_test, Hport.
    rewrite (Hrest t (SMTP host port)) by discriminate. simpl.
    rewrite (Hrest _ Ehlo) by discriminate. simpl.
    rewrite Htls. simpl. rewrite Hexc.
    rewrite (Hrest _ Quit) by discriminate. simpl. tidy. reflexivity.
Qed.

Lemma send_email_starttls_error_witness :
  let w := Samples.email_world Samples.smtp_env Samples.bad_certificate in
  send_email w Samples.plain_message "mail.example.com" 587 "ci" "secret" []
  = ([Smtp (SMTP "mail.example.com" 587); Smtp Ehlo; Smtp StartTLS; Smtp Quit],
     Raise SSLError).
Proof.
  intros w.
  destruct (send_email_starttls_error w Samples.plain_message
              "mail.example.com" 587 "ci" "secret" [] SSLError)
    as [_ Hexact]; [discriminate | reflexivity | reflexivity |].
  apply Hexact. intros h op Hop. destruct op; try reflexivity. congruence.
Defined.

(** X9. On a server that accepts every operation [send_email] returns
    normally after this exact session: with port 465 the implicit-TLS
    connection, the login when credentials are set, the message and QUIT;
    with another port the plaintext connection, EHLO, STARTTLS, a second
    EHLO on the upgraded connection, then login, message and QUIT. *)
Theorem send_email_session (w : World) (msg : EmailMessage) (host : string)
    (port : Z) (user password : string) (t : list event) :
  accepts_all w ->
  send_email w msg host port user password t
  = (t ++ (if (port =? 465)%Z
           then [Smtp (SMTP_SSL host port)]
           else [Smtp (SMTP host port); Smtp Ehlo; Smtp StartTLS; Smtp Ehlo])
       ++ login_events user password
       ++ [Smtp (SendMessage msg); Smtp Quit],
     Ok tt).
Proof.
  intros Hall. unfold_smtp. unfold login_events. rewrite port_test.
  destruct (_ =? 465)%Z; destruct (truthy user && truthy password);
    repeat (rewrite Hall; simpl); tidy; reflexivity.
Qed.

Lemma send_email_session_witness :
  let w := Samples.email_world Samples.smtp_env Samples.accepting in
  send_email w Samples.plain_message "mail.example.com" 587 "ci" "" []
  = ([Smtp (SMTP "mail.example.com" 587); Smtp Ehlo; Smtp StartTLS; Smtp Ehlo;
      Smtp (SendMessage Samples.plain_message); Smtp Quit],
     Ok tt).
Proof.
  intros w.
  apply (send_email_session w Samples.plain_message "mail.example.com" 587
           "ci" "" []).
  intros h op. reflexivity.
Defined.

(** *** [main] *)

Lemma main_valid (B : Builtins) (w : World) (args : Args) (p : Z) :
  valid_config B w args p ->
  run (main B w args) = deliver B w args p [].
Proof.
  intros (Hport & Hhost & Hsender & Hsrc & Hrcpt).
  unfold run, main, deliver, bind. rewrite Hport. simpl.
  rewrite Hhost, Hsender. simpl.
  unfold recipient_source in *.
  destruct (negb (truthy (getenv_or w "EMAIL_TO" "")) && negb (truthy_opt (to args)))
    eqn:Hto.
  { exfalso. apply Hsrc. apply andb_true_iff in Hto as [H1 H2].
    apply negb_true_iff in H1, H2. rewrite H2. now apply truthy_false in H1. }
  simpl. unfold effective_status, confirmation, recipient_source.
  destruct (recipients_of B _) as [|r rs] eqn:Hr; [congruence|]. reflexivity.
Qed.

(** The three ways a run of [main] can go. *)
Lemma main_cases (B : Builtins) (w : World) (args : Args) :
  run (main B w args) = ([], Raise ValueError)
  \/ (exists line, run (main B w args) = ([Stderr line], Ok 2%Z))
  \/ (exists p, valid_config B w args p).
Proof.
  destruct (int_of_str B (getenv_or w "SMTP_PORT" "587")) as [p|] eqn:Hport.
  2: { left. unfold run, main, bind. now rewrite Hport. }
  right.
  destruct (negb (truthy_opt (getenv w "SMTP_HOST"))
            || negb (truthy_opt (getenv w "EMAIL_FROM"))
            || negb (truthy (getenv_or w "EMAIL_TO" ""))
               && negb (truthy_opt (to args))) eqn:Hchk.
  { left. unfold run, main, bind. rewrite Hport. simpl. rewrite Hchk.
    eexists. reflexivity. }
  destruct (recipients_of B (recipient_source w args)) as [|r rs] eqn:Hr.
  { left. unfold run, main, bind. rewrite Hport. simpl. rewrite Hchk.
    unfold recipient_source in Hr. rewrite Hr. eexists. reflexivity. }
  right. exists p.
  apply orb_false_iff in Hchk as [Hchk Hto].
  apply orb_false_iff in Hchk as [Hh Hs].
  apply negb_false_iff in Hh, Hs.
  repeat split; try assumption; [|congruence].
  unfold recipient_source.
  destruct (truthy_opt (to args)) eqn:Ht.
  - destruct (to args) as [[|c s']|]; simpl in *; congruence.
  - simpl in Hto. rewrite andb_true_r in Hto. apply negb_false_iff in Hto.
    destruct (getenv_or w "EMAIL_TO" ""); simpl in *; congruence.
Qed.

Ltac keeps_message :=
  split; [reflexivity|]; split;
  [ repeat constructor
  | intros m Hm; try discriminate; injection Hm as <-; split; reflexivity ].

Lemma attach_file_trace (w : World) (msg : EmailMessage) (path : option string)
    (t : list event) :
  exists evs,
    fst (attach_file w msg path t) = t ++ evs
    /\ Forall (fun e => is_network e = false /\ is_stdout e = false) evs
    /\ forall m, snd (attach_file w msg path t) = Ok m ->
         msg_from m = msg_from msg /\ msg_to m = msg_to msg.
Proof.
  unfold attach_file.
  destruct path as [p|]; [|exists []; rewrite app_nil_r; keeps_message].
  destruct (truthy p); simpl; [|exists []; rewrite app_nil_r; keeps_message].
  destruct (path_exists w p); simpl.
  - exists []. rewrite app_nil_r.
    destruct (split_once "/" _) as [[mt st]|]; unfold bind, lift, raise, ret;
      [destruct (read_file w p)|]; simpl; keeps_message.
  - eexists. unfold bind, emit, ret. simpl. keeps_message.
Qed.

Lemma send_email_events (w : World) (msg : EmailMessage) (host : string)
    (port : Z) (user password : string) (t : list event) :
  exists evs,
    fst (send_email w msg host port user password t) = t ++ evs
    /\ Forall (fun e => is_network e = true /\ is_stdout e = false) evs
    /\ (snd (send_email w msg host port user password t) = Ok tt ->
        In (Smtp (SendMessage msg)) evs).
Proof.
  send_cases user password.
  all: eexists; split; [reflexivity|].
  all: split; [repeat constructor|].
  all: intros Hok; try discriminate; simpl; tauto.
Qed.

Lemma build_message_headers (w : World) (site status duration sender : string)
    (recipients : list string) (tz_env : option string)
    (t t' : list event) (msg : EmailMessage) :
  build_message w site status duration sender recipients tz_env t = (t', Ok msg) ->
  (multi_line sender = false
   /\ address_header w sender = Ok (msg_from msg))
  /\ (multi_line (join ", " recipients) = false
      /\ address_header w (join ", " recipients) = Ok (msg_to msg)).
Proof.
  intros E.
  pose proof (EmailFacts.build_message_cases w site status duration sender
                recipients tz_env t) as H.
  rewrite E in H. tauto.
Qed.

(** What a run of [deliver] looks like, step by step. *)
Lemma deliver_cases (B : Builtins) (w : World) (args : Args) (p : Z) :
  exists evs,
    fst (deliver B w args p []) = evs
    /\ (forall ev, In ev evs -> is_network ev = true ->
          exists msg0,
            build_message w (site args) (effective_status args) (duration args)
              (default "" (getenv w "EMAIL_FROM"))
              (recipients_of B (recipient_source w args))
              (Some (getenv_or w "TZ" "Asia/Jakarta")) [] = ([], Ok msg0))
    /\ (forall msg, In (Smtp (SendMessage msg)) evs ->
          (multi_line (default "" (getenv w "EMAIL_FROM")) = false
           /\ address_header w (default "" (getenv w "EMAIL_FROM"))
              = Ok (msg_from msg))
          /\ (multi_line
                (join ", " (recipients_of B (recipient_source w args))) = false
              /\ address_header w
                   (join ", " (recipients_of B (recipient_source w args)))
                 = Ok (msg_to msg)))
    /\ match snd (deliver B w args p []) with
       | Ok c =>
           c = 0%Z
           /\ exists evs' msg,
                evs = evs' ++ [confirmation B w args]
                /\ In (Smtp (SendMessage msg)) evs'
                /\ Forall (fun ev => is_stdout ev = false) evs'
       | Raise e => Forall (fun ev => is_stdout ev = false) evs
       end.
Proof.
  eexists. split; [reflexivity|]. unfold deliver, bind.
  destruct (build_message _ _ _ _ _ _ _ _) as [t1 [m1|e]] eqn:Hb.
  2: { apply build_message_raises in Hb as ->. simpl.
       split; [intros ev []|split; [intros msg []|constructor]]. }
  pose proof (build_message_headers _ _ _ _ _ _ _ _ _ _ Hb)
    as [[Hfrom1 Hfrom] [Hto1 Hto]].
  apply build_message_fields in Hb as Hb'. destruct Hb' as (-> & _ & _).
  destruct (attach_file_trace w m1 (report args) []) as (ea & Ha & Hna & Hkeep).
  assert (forall ev, In ev ea -> is_network ev = false /\ is_stdout ev = false)
    as Hna'.
  { intros ev Hin. rewrite Forall_forall in Hna. now apply Hna, list_elem_of_In. }
  assert (Forall (fun ev => is_stdout ev = false) ea) as Hquiet.
  { eapply Forall_impl; [exact Hna|]. now intros ev []. }
  destruct (attach_file w m1 (report args) []) as [t2 [m2|e]]; simpl in Ha, Hkeep;
    subst t2.
  2: { simpl. split; [|split; [|exact Hquiet]].
       - intros ev Hin Hnet. apply Hna' in Hin. destruct Hin; congruence.
       - intros msg Hin. apply Hna' in Hin. destruct Hin; discriminate. }
  destruct (Hkeep m2 eq_refl) as [Hf2 Ht2].
  match goal with
  | |- context [send_email ?w ?m ?h ?p ?u ?pw ?t] =>
      destruct (send_email_events w m h p u pw t) as (es & Hs & Hnet & Hsent);
      destruct (send_email_only_sends w m h p u pw t) as (es' & Hs' & Honly);
      destruct (send_email w m h p u pw t) as [t3 [[]|e]]
  end; simpl in Hs, Hs', Hsent; subst t3; apply app_inv_head in Hs'; subst es';
    simpl; unfold emit, ret; simpl.
  - split; [intros ev _ _; eauto|]. split.
    + intros msg Hin. rewrite !in_app_iff in Hin. simpl in Hin.
      destruct Hin as [[Hin|Hin]|[Hin|[]]]; [| |discriminate].
      * apply Hna' in Hin. destruct Hin; discriminate.
      * apply Honly in Hin. subst msg. rewrite Hf2, Ht2. tauto.
    + split; [reflexivity|]. exists (ea ++ es), m2.
      split; [reflexivity|]. split.
      * apply in_app_iff. right. now apply Hsent.
      * apply Forall_app. split; [exact Hquiet|].
        eapply Forall_impl; [exact Hnet|]. now intros ev [].
  - split; [intros ev _ _; eauto|]. split.
    + intros msg Hin. rewrite in_app_iff in Hin.
      destruct Hin as [Hin|Hin].
      * apply Hna' in Hin. destruct Hin; discriminate.
      * apply Honly in Hin. subst msg. rewrite Hf2, Ht2. tauto.
    + apply Forall_app. split; [exact Hquiet|].
      eapply Forall_impl; [exact Hnet|]. now intros ev [].
Qed.

(** X10. A run of [main] returns only 2 or 0.  It returns 2 after a single
    line on standard error and nothing else.  It returns 0 only after a
    message has been handed to the SMTP server, and then the confirmation
    line naming the recipients is the last event and the only line on
    standard output.  A run that ends in an exception has printed nothing
    on standard output. *)
Theorem email_main_outcomes (B : Builtins) (w : World) (args : Args) :
  match run (main B w args) with
  | (tr, Ok c) =>
      (c = 2%Z /\ exists line, tr = [Stderr line])
      \/ (c = 0%Z
          /\ exists tr' msg,
               tr = tr' ++ [confirmation B w args]
               /\ In (Smtp (SendMessage msg)) tr'
               /\ Forall (fun ev => is_stdout ev = false) tr')
  | (tr, Raise e) => Forall (fun ev => is_stdout ev = false) tr
  end.
Proof.
  destruct (main_cases B w args) as [H|[[line H]|[p H]]].
  - rewrite H. constructor.
  - rewrite H. left. eauto.
  - rewrite (main_valid B w args p H).
    destruct (deliver_cases B w args p) as (evs & He & _ & _ & Hres).
    destruct (deliver B w args p []) as [tr [c|e]]; simpl in *; subst evs.
    + right. exact Hres.
    + exact Hres.
Qed.

(** X11. [main] touches the network only with a complete configuration:
    if any SMTP operation appears in a run, then the port parsed, host and
    sender are set and non-empty, at least one recipient was resolved, and
    the message had been built before. *)
Theorem main_network_needs_config (B : Builtins) (w : World) (args : Args)
    (ev : event) :
  In ev (fst (run (main B w args))) ->
  is_network ev = true ->
  exists p msg0,
    valid_config B w args p
    /\ build_message w (site args) (effective_status args) (duration args)
         (default "" (getenv w "EMAIL_FROM"))
         (recipients_of B (recipient_source w args))
         (Some (getenv_or w "TZ" "Asia/Jakarta")) [] = ([], Ok msg0).
Proof.
  destruct (main_cases B w args) as [H|[[line H]|[p H]]].
  - rewrite H. intros [].
  - rewrite H. intros [<-|[]]. discriminate.
  - rewrite (main_valid B w args p H).
    destruct (deliver_cases B w args p) as (evs & He & Hnet & _).
    rewrite He. intros Hin Hev.
    destruct (Hnet ev Hin Hev) as [msg0 Hb]. eauto.
Qed.

Lemma main_network_needs_config_witness :
  let w := Samples.email_world Samples.smtp_env Samples.accepting in
  let args := Samples.email_args "Success" None None in
  exists p msg0,
    valid_config ascii_builtins w args p
    /\ build_message w (site args) (effective_status args) (duration args)
         (default "" (getenv w "EMAIL_FROM"))
         (recipients_of ascii_builtins (recipient_source w args))
         (Some (getenv_or w "TZ" "Asia/Jakarta")) [] = ([], Ok msg0).
Proof.
  intros w args.
  apply (main_network_needs_config ascii_builtins w args
           (Smtp (SMTP "mail.example.com" 587))).
  - vm_compute. left. reflexivity.
  - reflexivity.
Defined.

(** X12. Every message [main] hands to the server carries, as its From
    header, what the address parser of the [email] package keeps of
    [EMAIL_FROM], and as its To header what it keeps of the resolved
    recipients joined by ", ": those of [--to] alone when it is given and
    not empty, whatever [EMAIL_TO] holds, and those of [EMAIL_TO]
    otherwise.  Neither text spans more than one line: a sender or a
    recipient list with an inner line break is never sent. *)
Theorem main_sent_headers (B : Builtins) (w : World) (args : Args)
    (msg : EmailMessage) :
  In (Smtp (SendMessage msg)) (fst (run (main B w args))) ->
  (exists sender,
     environ w !! "EMAIL_FROM" = Some sender
     /\ multi_line sender = false
     /\ address_header w sender = Ok (msg_from msg))
  /\ (forall s, to args = Some s -> s <> "" ->
        multi_line (join ", " (recipients_of B s)) = false
        /\ address_header w (join ", " (recipients_of B s)) = Ok (msg_to msg))
  /\ (to args = None \/ to args = Some "" ->
      multi_line (join ", " (recipients_of B (getenv_or w "EMAIL_TO" "")))
      = false
      /\ address_header w
           (join ", " (recipients_of B (getenv_or w "EMAIL_TO" "")))
         = Ok (msg_to msg)).
Proof.
  destruct (main_cases B w args) as [H|[[line H]|[p H]]].
  - rewrite H. intros [].
  - rewrite H. intros [?|[]]. discriminate.
  - rewrite (main_valid B w args p H).
    destruct (deliver_cases B w args p) as (evs & He & _ & Hhdr & _).
    rewrite He. intros Hin. destruct (Hhdr msg Hin) as [Hfrom Hto].
    destruct H as (_ & _ & Hsender & _).
    split; [|split].
    + unfold getenv in *. destruct (environ w !! "EMAIL_FROM") as [s|];
        [exists s; simpl in Hfrom; tauto | discriminate].
    + intros s Hs Hne. unfold recipient_source in Hto. rewrite Hs in Hto.
      destruct s; [congruence | exact Hto].
    + intros Hs. unfold recipient_source in Hto.
      destruct Hs as [Hs | Hs]; rewrite Hs in Hto; exact Hto.
Qed.

Lemma main_sent_headers_witness :
  let w := Samples.email_world Samples.smtp_env Samples.accepting in
  let args := Samples.email_args "Success" None (Some "qa@example.com") in
  let msg := {| msg_from := "ci@example.com";
                msg_to := "qa@example.com";
                msg_subject := "PageSpeed Insight Report - 04 Mar 2025 | 09:05 WIB";
                msg_content :=
                  body_of "https://example.com" "Success" "4.99" +:+ nl;
                msg_attachments := [] |} in
  In (Smtp (SendMessage msg)) (fst (run (main ascii_builtins w args)))
  /\ address_header w (join ", " (recipients_of ascii_builtins "qa@example.com"))
     = Ok (msg_to msg).
Proof.
  intros w args msg.
  assert (In (Smtp (SendMessage msg)) (fst (run (main ascii_builtins w args))))
    as Hin.
  { vm_compute. do 4 right. left. reflexivity. }
  split; [exact Hin|].
  destruct (main_sent_headers ascii_builtins w args msg Hin) as (_ & Hto & _).
  apply Hto; [reflexivity | discriminate].
Defined.

(** X13. A report that exists but cannot be read is fatal, unlike a
    missing one: with a valid configuration, [main] raises before any SMTP
    operation and prints nothing.  What it raises is the error of reading
    the file when [build_message] has returned a message, and the error of
    [build_message] otherwise. *)
Theorem main_unreadable_report (B : Builtins) (w : World) (args : Args)
    (path : string) (p : Z) (e : exn) :
  valid_config B w args p ->
  report args = Some path ->
  path <> "" ->
  path_exists w path = true ->
  attachment_of w path "" <> None ->
  read_file w path = Raise e ->
  match build_message w (site args) (effective_status args) (duration args)
          (default "" (getenv w "EMAIL_FROM"))
          (recipients_of B (recipient_source w args))
          (Some (getenv_or w "TZ" "Asia/Jakarta")) [] with
  | (_, Ok _) => run (main B w args) = ([], Raise e)
  | (_, Raise e') => run (main B w args) = ([], Raise e')
  end.
Proof.
  intros Hvalid Hreport Hpath Hex Htype Hread.
  rewrite (main_valid B w args p Hvalid). unfold deliver, bind.
  destruct (build_message _ _ _ _ _ _ _ _) as [t1 [msg0|e']] eqn:Hbuild.
  2: { now apply EmailFacts.build_message_raises in Hbuild as ->. }
  apply EmailFacts.build_message_fields in Hbuild as (-> & _).
  rewrite Hreport. unfold attach_file, attachment_of in *.
  destruct path as [|c path']; [congruence|]. simpl truthy. simpl negb. cbv iota.
  rewrite Hex. simpl negb. cbv iota.
  destruct (split_once "/" _) as [[mt st]|]; [|congruence].
  unfold bind, lift. now rewrite Hread.
Qed.

Lemma main_unreadable_report_witness :
  let w := Samples.report_world Samples.smtp_env Samples.accepting
             (Some "text/html") (Raise OSError) in
  let args := Samples.email_args "Success" (Some "dashboard/index.html") None in
  run (main ascii_builtins w args) = ([], Raise OSError).
Proof.
  intros w args.
  apply (main_unreadable_report ascii_builtins w args "dashboard/index.html"
           587%Z OSError).
  - repeat split; vm_compute; congruence.
  - reflexivity.
  - discriminate.
  - reflexivity.
  - discriminate.
  - reflexivity.
Defined.



(** *** Recipients *)

Section Recipients.
Context (B : Builtins).

(** A leading space is white space for [str.strip]. *)
Hypothesis strip_leading_space :
  forall s, str_strip B (String " " s) = str_strip B s.

Lemma split_on_leading_space (s : string) :
  map (str_strip B) (split_on "," (String " " s))
  = map (str_strip B) (split_on "," s).
Proof using strip_leading_space.
  simpl. pose proof (split_on_nonempty "," s) as Hne.
  destruct (split_on "," s) as [|h l]; [congruence|].
  simpl. now rewrite strip_leading_space.
Qed.

Lemma split_joined_addresses (l : list string) :
  Forall (clean_address B) l ->
  l <> [] ->
  map (str_strip B) (split_on "," (join ", " l)) = l.
Proof using strip_leading_space.
  induction l as [|x l IH]; [congruence|]. intros Hall _.
  inversion Hall as [|? ? (Hne & Hcomma & Hstrip) Hl]; subst.
  destruct l as [|y l].
  - simpl. rewrite (TelegramFacts.split_on_no_sep _ _ Hcomma). simpl.
    now rewrite Hstrip.
  - change (join ", " (x :: y :: l))
      with (x +:+ String "," (String " " (join ", " (y :: l)))).
    rewrite (TelegramFacts.split_on_app _ _ _ Hcomma).
    rewrite map_cons, split_on_leading_space, Hstrip.
    f_equal. apply IH; [exact Hl | discriminate].
Qed.

Lemma filter_clean (l : list string) :
  Forall (clean_address B) l ->
  filter (fun e => truthy e = true) l = l.
Proof.
  induction l as [|y l IH]; intros Hall; [reflexivity|].
  inversion Hall as [|? ? (Hne & _ & _) Hl]; subst.
  rewrite filter_cons_True; [now rewrite IH|].
  destruct y; [congruence | reflexivity].
Qed.

(** X15. The recipient list survives its own rendering, for every
    [str.strip] that removes a leading space: for a list of at least one
    address, when the addresses are not empty, hold no comma and are left
    unchanged by [strip], joining them with ", " (as the To header and the
    confirmation line do) and resolving recipients from that text gives
    the same list back, in the same order and with its duplicates. *)
Theorem recipients_round_trip (l : list string) :
  l <> [] ->
  Forall (clean_address B) l ->
  recipients_of B (join ", " l) = l.
Proof using strip_leading_space.
  intros Hne Hall. unfold recipients_of.
  rewrite split_joined_addresses by assumption.
  now apply filter_clean.
Qed.
End Recipients.

Lemma recipients_round_trip_witness :
  recipients_of ascii_builtins
    (join ", " ["dev@example.com"; "ops@example.com"; "dev@example.com"])
  = ["dev@example.com"; "ops@example.com"; "dev@example.com"].
Proof.
  apply (recipients_round_trip ascii_builtins).
  - reflexivity.
  - discriminate.
  - repeat constructor; discriminate.
Defined.

End EmailBehaviour.

(** ** Further behaviour of the Telegram notifier *)

Module TelegramBehaviour.
Import Py PyFacts NotifyTelegram TelegramFacts.

(** *** Required environment *)

Lemma env_blank (B : Builtins) (w : World) (name : string) (t : list event) :
  is_blank B (environ w !! name) = true ->
  env B w name None true t
  = (t ++ [Stderr ("[notify_telegram] Missing required env: " +:+ name)],
     Raise (SystemExit 2)).
Proof.
  unfold env, is_blank. destruct (environ w !! name) as [v|]; simpl.
  - intros ->. reflexivity.
  - reflexivity.
Qed.

Lemma env_set (B : Builtins) (w : World) (name : string) (t : list event) :
  is_blank B (environ w !! name) = false ->
  env B w name None true t = (t, Ok (environ w !! name)).
Proof.
  unfold env, is_blank. destruct (environ w !! name) as [v|]; simpl;
    [|discriminate].
  intros ->. reflexivity.
Qed.

(** X16. When [TELEGRAM_BOT_TOKEN] is unset or blank, [main] prints one
    line naming it on standard error and exits with status 2; when the
    token is set and [TELEGRAM_CHAT_ID] is unset or blank, the line names
    the chat id.  In both cases no HTTP request is issued. *)
Theorem main_missing_credentials (B : Builtins) (w : World) (args : Args) :
  (is_blank B (environ w !! "TELEGRAM_BOT_TOKEN") = true ->
     run (main B w args)
     = ([Stderr "[notify_telegram] Missing required env: TELEGRAM_BOT_TOKEN"],
        Raise (SystemExit 2)))
  /\ (is_blank B (environ w !! "TELEGRAM_BOT_TOKEN") = false ->
      is_blank B (environ w !! "TELEGRAM_CHAT_ID") = true ->
      run (main B w args)
      = ([Stderr "[notify_telegram] Missing required env: TELEGRAM_CHAT_ID"],
         Raise (SystemExit 2)))
  /\ (is_blank B (environ w !! "TELEGRAM_BOT_TOKEN") = true
      \/ is_blank B (environ w !! "TELEGRAM_CHAT_ID") = true ->
      exit_status (snd (run (main B w args))) = 2%Z
      /\ Forall (fun e => is_network e = false) (fst (run (main B w args)))).
Proof.
  assert (is_blank B (environ w !! "TELEGRAM_BOT_TOKEN") = true ->
          run (main B w args)
          = ([Stderr "[notify_telegram] Missing required env: TELEGRAM_BOT_TOKEN"],
             Raise (SystemExit 2))) as Htoken.
  { intros H. unfold run, main, bind. now rewrite (env_blank B w _ [] H). }
  assert (is_blank B (environ w !! "TELEGRAM_BOT_TOKEN") = false ->
          is_blank B (environ w !! "TELEGRAM_CHAT_ID") = true ->
          run (main B w args)
          = ([Stderr "[notify_telegram] Missing required env: TELEGRAM_CHAT_ID"],
             Raise (SystemExit 2))) as Hchat.
  { intros H1 H2. unfold run, main, bind.
    rewrite (env_set B w _ [] H1). now rewrite (env_blank B w _ [] H2). }
  split; [exact Htoken|]. split; [exact Hchat|].
  intros Hor.
  destruct (is_blank B (environ w !! "TELEGRAM_BOT_TOKEN")) eqn:Ht.
  - rewrite Htoken by reflexivity. simpl. split; [reflexivity | repeat constructor].
  - destruct Hor as [Hor|Hor]; [discriminate|].
    rewrite Hchat by auto. simpl. split; [reflexivity | repeat constructor].
Qed.

Lemma main_missing_credentials_witness :
  run (main ascii_builtins
         (Samples.telegram_world [("TELEGRAM_BOT_TOKEN", "123:abc");
                                  ("TELEGRAM_CHAT_ID", "   ")]
                                 (JObj ∅))
         (Samples.telegram_args "SUCCESS"))
  = ([Stderr "[notify_telegram] Missing required env: TELEGRAM_CHAT_ID"],
     Raise (SystemExit 2)).
Proof.
  apply (main_missing_credentials ascii_builtins); reflexivity.
Defined.

(** *** The request and the response *)

Lemma credentials_not_blank (B : Builtins) (w : World) (token chat_id : string) :
  credentials B w token chat_id <->
  environ w !! "TELEGRAM_BOT_TOKEN" = Some token
  /\ environ w !! "TELEGRAM_CHAT_ID" = Some chat_id
  /\ is_blank B (environ w !! "TELEGRAM_BOT_TOKEN") = false
  /\ is_blank B (environ w !! "TELEGRAM_CHAT_ID") = false.
Proof.
  unfold credentials. split.
  - intros (Ht & Ht' & Hc & Hc'). rewrite Ht, Hc. simpl.
    repeat split; try reflexivity; now apply String.eqb_neq.
  - intros (Ht & Hc & Hbt & Hbc). rewrite Ht in Hbt. rewrite Hc in Hbc.
    simpl in *. repeat split; try assumption; now apply String.eqb_neq.
Qed.

(** With both credentials set, a run of [main] is one request followed by
    the inspection of its decoded answer. *)
Lemma main_with_credentials (B : Builtins) (w : World) (args : Args)
    (token chat_id : string) :
  credentials B w token chat_id ->
  exists now_str,
    let req := request_of token chat_id (text_of B args now_str) in
    now_str_of w [] = ([], Ok now_str)
    /\ run (main B w args)
       = match urlopen w [] req with
         | Raise e => ([UrlOpen req 20], Raise e)
         | Ok raw =>
             match json_loads w raw with
             | Raise e => ([UrlOpen req 20], Raise e)
             | Ok res => check_response w res [UrlOpen req 20]
             end
         end.
Proof.
  intros Hcred. apply credentials_not_blank in Hcred as (Ht & Hc & Hbt & Hbc).
  destruct (now_str_total w []) as [now_str Hnow]. exists now_str. cbv zeta.
  split; [exact Hnow|].
  unfold run, main, bind.
  rewrite (env_set B w _ [] Hbt), (env_set B w _ [] Hbc), Hnow, Ht, Hc.
  unfold send_message, request_of, bind, history, emit, lift. simpl.
  destruct (urlopen w [] _) as [raw|e]; [|reflexivity].
  destruct (json_loads w raw) as [res|e]; [|reflexivity].
  unfold check_response, bind, lift.
  destruct (py_get res "ok"); reflexivity.
Qed.

Lemma credentials_or_blank (B : Builtins) (w : World) :
  (exists token chat_id, credentials B w token chat_id)
  \/ is_blank B (environ w !! "TELEGRAM_BOT_TOKEN") = true
  \/ (is_blank B (environ w !! "TELEGRAM_BOT_TOKEN") = false
      /\ is_blank B (environ w !! "TELEGRAM_CHAT_ID") = true).
Proof.
  destruct (is_blank B (environ w !! "TELEGRAM_BOT_TOKEN")) eqn:Ht; [auto|].
  destruct (is_blank B (environ w !! "TELEGRAM_CHAT_ID")) eqn:Hc; [auto|].
  left.
  destruct (environ w !! "TELEGRAM_BOT_TOKEN") as [token|] eqn:Et; [|discriminate].
  destruct (environ w !! "TELEGRAM_CHAT_ID") as [chat|] eqn:Ec; [|discriminate].
  exists token, chat. apply credentials_not_blank. rewrite Et, Ec. auto.
Qed.

Lemma check_response_trace (w : World) (res : json) (t : list event) :
  match check_response w res t with
  | (tr, Ok c) => c = 0%Z /\ tr = t ++ [Stdout "[notify_telegram] Sent."]
  | (tr, Raise e) => tr = t \/ exists line, tr = t ++ [Stderr line]
  end.
Proof.
  unfold check_response, bind, lift, emit, raise, ret.
  destruct (py_get res "ok") as [okv|e]; [|auto].
  destruct (py_bool okv); simpl; eauto.
Qed.

(** X17. In any run, [main] issues at most one HTTP request, and only
    when both credentials are set and not blank: it is then a POST with a
    20 s timeout to the [sendMessage] URL of the token read from the
    environment, whose body carries the chat id read from the environment,
    the composed text, the parse mode HTML and the disabled preview. *)
Theorem main_single_request (B : Builtins) (w : World) (args : Args) :
  length (List.filter is_network (fst (run (main B w args)))) <= 1
  /\ forall req timeout,
       In (UrlOpen req timeout) (fst (run (main B w args))) ->
       timeout = 20%Z
       /\ get_method req = "POST"
       /\ exists token chat_id now_str,
            credentials B w token chat_id
            /\ req_url req
               = "https://api.telegram.org/bot" +:+ token +:+ "/sendMessage"
            /\ form_decode (default "" (req_data req))
               = [("chat_id", chat_id); ("text", text_of B args now_str);
                  ("parse_mode", "HTML"); ("disable_web_page_preview", "True")].
Proof.
  destruct (credentials_or_blank B w) as [(token & chat & Hcred)|Hblank].
  - destruct (main_with_credentials B w args token chat Hcred)
      as (now_str & _ & Hrun).
    cbv zeta in Hrun. rewrite Hrun.
    set (req := request_of token chat (text_of B args now_str)).
    assert (forall tr : list event,
              tr = [UrlOpen req 20] \/ (exists line, tr = [UrlOpen req 20; Stdout line])
              \/ (exists line, tr = [UrlOpen req 20; Stderr line]) ->
              length (List.filter is_network tr) <= 1
              /\ forall r timeout, In (UrlOpen r timeout) tr ->
                   timeout = 20%Z /\ get_method r = "POST"
                   /\ exists token chat_id now_str,
                        credentials B w token chat_id
                        /\ req_url r = "https://api.telegram.org/bot" +:+ token
                                         +:+ "/sendMessage"
                        /\ form_decode (default "" (req_data r))
                           = [("chat_id", chat_id);
                              ("text", text_of B args now_str);
                              ("parse_mode", "HTML");
                              ("disable_web_page_preview", "True")]) as Hshape.
    { intros tr [->|[[line ->]|[line ->]]]; (split; [simpl; lia|]);
        intros r timeout Hin; simpl in Hin;
        repeat (destruct Hin as [Hin|Hin]; try discriminate; try contradiction);
        injection Hin as <- <-; (split; [reflexivity|]); (split; [reflexivity|]);
        exists token, chat, now_str; (split; [exact Hcred|]);
        (split; [reflexivity|]); unfold req, request_of; simpl;
        now rewrite form_decode_urlencode. }
    destruct (urlopen w [] req) as [raw|e]; [|apply Hshape; auto].
    destruct (json_loads w raw) as [res|e]; [|apply Hshape; auto].
    pose proof (check_response_trace w res [UrlOpen req 20]) as Hc.
    destruct (check_response w res [UrlOpen req 20]) as [tr [c|e]]; simpl.
    + destruct Hc as [_ ->]. apply Hshape. right. left. eauto.
    + destruct Hc as [->|[line ->]]; apply Hshape; [auto|]. right. right. eauto.
  - assert (exists line, run (main B w args)
                         = ([Stderr line], Raise (SystemExit 2))) as [line ->].
    { destruct Hblank as [Ht|[Ht Hc]]; unfold run, main, bind.
      - rewrite (env_blank B w _ [] Ht). eauto.
      - rewrite (env_set B w _ [] Ht), (env_blank B w _ [] Hc). eauto. }
    simpl. split; [lia|]. intros r timeout [?|[]]. discriminate.
Qed.

Lemma main_single_request_witness :
  let w := Samples.telegram_world Samples.bot_env (JObj {[ "ok" := JBool true ]}) in
  let req := request_of "123:abc" "-100200"
               (text_of ascii_builtins (Samples.telegram_args "SUCCESS")
                  "04 Mar 2025 | 09:05 WIB") in
  exists token chat_id now_str,
    credentials ascii_builtins w token chat_id
    /\ req_url req = "https://api.telegram.org/bot" +:+ token +:+ "/sendMessage"
    /\ form_decode (default "" (req_data req))
       = [("chat_id", chat_id);
          ("text", text_of ascii_builtins (Samples.telegram_args "SUCCESS") now_str);
          ("parse_mode", "HTML"); ("disable_web_page_preview", "True")].
Proof.
  intros w req.
  destruct (main_single_request ascii_builtins w (Samples.telegram_args "SUCCESS"))
    as [_ Hreq].
  destruct (Hreq req 20%Z) as (_ & _ & Hcred); [|exact Hcred].
  vm_compute. left. reflexivity.
Defined.







(** X21. [main] returns only 0, and only after its request: a run that
    returns has issued one request and then printed the confirmation as
    its only other event; a run that ends in an exception has printed
    nothing on standard output. *)
Theorem telegram_main_outcomes (B : Builtins) (w : World) (args : Args) :
  match run (main B w args) with
  | (tr, Ok c) =>
      c = 0%Z
      /\ exists req, tr = [UrlOpen req 20; Stdout "[notify_telegram] Sent."]
  | (tr, Raise e) => Forall (fun ev => is_stdout ev = false) tr
  end.
Proof.
  destruct (credentials_or_blank B w) as [(token & chat & Hcred)|Hblank].
  - destruct (main_with_credentials B w args token chat Hcred)
      as (now_str & _ & Hrun).
    cbv zeta in Hrun. rewrite Hrun.
    destruct (urlopen w [] _) as [raw|e]; [|repeat constructor].
    destruct (json_loads w raw) as [res|e]; [|repeat constructor].
    match goal with
    | |- context [check_response w res ?t] =>
        pose proof (check_response_trace w res t) as Hc;
        destruct (check_response w res t) as [tr [c|e]]
    end.
    + destruct Hc as [-> ->]. split; [reflexivity|]. eauto.
    + destruct Hc as [->|[line ->]]; repeat constructor.
  - destruct Hblank as [Ht|[Ht Hc]]; unfold run, main, bind.
    + rewrite (env_blank B w _ [] Ht). repeat constructor.
    + rewrite (env_set B w _ [] Ht), (env_blank B w _ [] Hc). repeat constructor.
Qed.

(** *** The message *)

(** X22. [now_str_of] never raises and emits nothing.  When the zone named
    by [TZ] (Asia/Jakarta when unset) loads, the time line is "DD Mon YYYY
    | HH:MM" followed by the abbreviation of that zone; when it does not,
    it is the UTC reading in the same format followed by the literal
    "UTC". *)
Theorem now_str_format (w : World) (t : list event) :
  (forall d, zone_now w (default "Asia/Jakarta" (environ w !! "TZ")) = Some d ->
     now_str_of w t
     = (t, Ok (two_digits (dt_day d) +:+ " " +:+ month_abbr (dt_month d) +:+ " "
                 +:+ pretty (dt_year d) +:+ " | " +:+ two_digits (dt_hour d)
                 +:+ ":" +:+ two_digits (dt_minute d) +:+ " " +:+ dt_tzname d)))
  /\ (zone_now w (default "Asia/Jakarta" (environ w !! "TZ")) = None ->
      now_str_of w t
      = (t, Ok (two_digits (dt_day (utc_now w)) +:+ " "
                  +:+ month_abbr (dt_month (utc_now w)) +:+ " "
                  +:+ pretty (dt_year (utc_now w)) +:+ " | "
                  +:+ two_digits (dt_hour (utc_now w)) +:+ ":"
                  +:+ two_digits (dt_minute (utc_now w)) +:+ " UTC"))).
Proof.
  split.
  - intros d Hd. unfold now_str_of, try_except, bind, ret. rewrite Hd.
    unfold strftime_zone, strftime_d_b_Y, strftime_H_M, fmt_Y.
    now rewrite !append_assoc.
  - intros Hd. unfold now_str_of, try_except, bind, ret, raise. rewrite Hd.
    simpl. unfold strftime_utc, strftime_d_b_Y, strftime_H_M, fmt_Y.
    now rewrite !append_assoc.
Qed.

Lemma now_str_format_witness :
  now_str_of (Samples.telegram_world (("TZ", "Mars/Olympus") :: Samples.bot_env)
                                     (JObj ∅)) []
  = ([], Ok "04 Mar 2025 | 02:05 UTC").
Proof.
  apply (now_str_format
           (Samples.telegram_world (("TZ", "Mars/Olympus") :: Samples.bot_env)
                                   (JObj ∅)) []).
  reflexivity.
Defined.

(** X23. The message is the title, the status badge and the site, then
    the duration line, the time line, the dashboard line and the extra
    note, in this order and separated by newlines; each of the duration,
    dashboard and extra lines is present exactly when its argument is
    given and not empty, so an empty argument is the same as an absent
    one. *)
Theorem text_of_lines (B : Builtins) (args : Args) (now_str : string) :
  text_of B args now_str
  = join nl (["<b>PageSpeed Insight Report</b>";
              "Status: <b>" +:+ badge_of B (status args) +:+ "</b>";
              "Site: <code>" +:+ site args +:+ "</code>"]
               ++ optional_line "Duration: <b>" (duration args) " s</b>"
               ++ ["Time: " +:+ now_str]
               ++ optional_line "Dashboard: " (dashboard args) ""
               ++ optional_line "" (extra args) "").
Proof.
  unfold text_of, lines_of, optional_line.
  destruct (duration args) as [[|c1 s1]|], (dashboard args) as [[|c2 s2]|],
    (extra args) as [[|c3 s3]|]; simpl; rewrite ?append_nil_r; reflexivity.
Qed.

(** *** The form body *)

Lemma all_chars_app (p : ascii -> bool) (a b : string) :
  all_chars p (a +:+ b) = all_chars p a && all_chars p b.
Proof.
  induction a as [|x a IH]; [reflexivity|].
  change (p x && all_chars p (a +:+ b) = p x && all_chars p a && all_chars p b).
  rewrite IH. now rewrite andb_assoc.
Qed.

Lemma quote_char_wire_safe (a : ascii) :
  all_chars wire_safe (quote_char a) = true.
Proof. destruct a as [[] [] [] [] [] [] [] []]; reflexivity. Qed.

Lemma quote_char_safe (a : ascii) :
  always_safe a = true -> quote_char a = String a "".
Proof. intros H. unfold quote_char. now rewrite H. Qed.

(** X24. [quote_plus] writes only letters, digits and the characters
    [_ . - ~ + %]: whatever bytes the text holds (markup, newlines,
    UTF-8), the encoded value is plain ASCII with no [&] and no [=].  A
    string made of letters, digits and [_ . - ~] is left as it is. *)
Theorem quote_plus_alphabet (s : string) :
  all_chars wire_safe (quote_plus s) = true
  /\ has_char "&" (quote_plus s) = false
  /\ has_char "=" (quote_plus s) = false
  /\ (all_chars always_safe s = true -> quote_plus s = s).
Proof.
  split; [|split; [|split]].
  - induction s as [|a s IH]; [reflexivity|]. simpl.
    now rewrite all_chars_app, quote_char_wire_safe, IH.
  - apply quote_plus_no_sep.
  - apply quote_plus_no_sep.
  - induction s as [|a s IH]; [reflexivity|]. simpl.
    intros H. apply andb_true_iff in H as [Ha Hs].
    now rewrite (quote_char_safe a Ha), (IH Hs).
Qed.

Lemma quote_plus_alphabet_witness :
  quote_plus "123456-abc_DEF.~" = "123456-abc_DEF.~".
Proof. apply quote_plus_alphabet. reflexivity. Defined.

(** X25. The body written by [urlencode] determines its fields: decoding
    it gives back every name with [str] of its value, in order, so two
    lists of fields with the same body are the same fields.  No content of
    a value (an [&], an [=], a [%]) can add, drop or alter a field. *)
Theorem urlencode_round_trip (data : list (string * form_value)) :
  form_decode (urlencode data) = fields_of data
  /\ length (form_decode (urlencode data)) = length data
  /\ forall data', urlencode data = urlencode data' ->
                   fields_of data = fields_of data'.
Proof.
  assert (forall d, form_decode (urlencode d) = fields_of d) as Hrt.
  { intros d. apply form_decode_urlencode. }
  split; [apply Hrt|]. split.
  - rewrite Hrt. unfold fields_of. apply length_map.
  - intros data' Heq. rewrite <- (Hrt data), <- (Hrt data'). now rewrite Heq.
Qed.

Lemma urlencode_round_trip_witness :
  form_decode (urlencode [("text", FStr "a&parse_mode=Markdown"); ("x", FBool false)])
  = [("text", "a&parse_mode=Markdown"); ("x", "False")].
Proof.
  apply (urlencode_round_trip
           [("text", FStr "a&parse_mode=Markdown"); ("x", FBool false)]).
Defined.

End TelegramBehaviour.
